(** * Contacts API: a shallow embedding of the [contacts] application

    The development follows the layout of the Python package:
    - [Py]         the fragment of Python the code relies on (values,
                   truthiness, exceptions, [str] methods);
    - [Models]     [contacts/models.py];
    - [Env]        what the code runs in: the clock, the database
                   connection, the request object;
    - [Mixins]     [contacts/mixins.py];
    - [Views]      [contacts/views.py];
    - [Router]     the router of [contacts/urls.py] and the generic view
                   sets of the framework, as far as the class statement of
                   [ContactViewSet] relies on them;
    - [Benchmarks] [contacts/benchmarks.py];
    - [Samples]    concrete states for the examples.
    The properties come last, grouped by module.

    Conventions.  Python [int] is [Z]; [float] is the binary64 [float] of
    the kernel, with its rounding; [str] is [string], one character per code
    point, for the code points below 256; timeouts are whole seconds; a
    function that may raise returns a [result], and a function with effects
    is a state transformer over [Env.World]. *)

From Stdlib Require Import QArith Ascii String Floats.
From stdpp Require Import base option list gmap strings sorting pretty numbers.

Set Warnings "-register-all".

Local Open Scope Z_scope.

(** ** Python values, exceptions and strings *)
Module Py.

(** The values that occur as attributes and response bodies. *)
Inductive pyval : Type :=
  | PyNone
  | PyBool (b : bool)
  | PyInt (z : Z)
  | PyStr (s : string)
  | PyList (items : list pyval)
  | PyDict (entries : list (string * pyval)).

(** [bool(v)] *)
Definition truthy (v : pyval) : bool :=
  match v with
  | PyNone => false
  | PyBool b => b
  | PyInt z => negb (z =? 0)
  | PyStr s => negb (String.eqb s EmptyString)
  | PyList l => match l with [] => false | _ => true end
  | PyDict d => match d with [] => false | _ => true end
  end.

(** [type(v).__name__] *)
Definition type_name (v : pyval) : string :=
  match v with
  | PyNone => "NoneType"
  | PyBool _ => "bool"
  | PyInt _ => "int"
  | PyStr _ => "str"
  | PyList _ => "list"
  | PyDict _ => "dict"
  end.

(** The exception classes the application meets.  [KeyboardInterrupt] and
    [SystemExit] derive from [BaseException] only. *)
Inductive exn_class : Type :=
  | OperationalError
  | TimeoutError
  | RequestAborted
  | TypeError
  | ValueError
  | AttributeError
  | ZeroDivisionError
  | OtherException
  | KeyboardInterrupt
  | SystemExit.

(** An exception instance; [str(e)] is its message. *)
Record exn : Type := mkExn { exn_cls : exn_class; exn_msg : string }.

(** [isinstance(e, Exception)] *)
Definition is_Exception (c : exn_class) : bool :=
  match c with
  | KeyboardInterrupt | SystemExit => false
  | _ => true
  end.

(** [isinstance(e, OperationalError)] *)
Definition is_OperationalError (c : exn_class) : bool :=
  match c with
  | OperationalError => true
  | _ => false
  end.

(** An arbitrary object, as far as its [status_code] and [data] attributes
    go; [None] in a field: the object has no such attribute. *)
Record pyobj : Type := mkObj {
  attr_status_code : option pyval;
  attr_data : option pyval
}.

Inductive result (A : Type) : Type :=
  | Ok (a : A)
  | Raise (e : exn).
Arguments Ok {A} a.
Arguments Raise {A} e.

(** [len(v)]; a value without [__len__] raises [TypeError]. *)
Definition py_len (v : pyval) : result nat :=
  match v with
  | PyStr s => Ok (String.length s)
  | PyList l => Ok (length l)
  | PyDict d => Ok (length d)
  | _ => Raise (mkExn TypeError
                  ("object of type '" +:+ type_name v +:+ "' has no len()"))
  end.

(** [d.get(key)] on a dict kept as an association list. *)
Fixpoint dict_get (key : string) (d : list (string * pyval)) : option pyval :=
  match d with
  | [] => None
  | (k, v) :: d' => if String.eqb k key then Some v else dict_get key d'
  end.

(** *** Floats *)

(** The real number a finite float stands for, read off its sign, mantissa
    and exponent; infinities and [nan] stand for none. *)
Definition real_of_float (x : float) : option Q :=
  match Prim2SF x with
  | S754_zero _ => Some 0%Q
  | S754_finite negative m e =>
      let v := if negative then Z.neg m else Z.pos m in
      Some (if 0 <=? e then inject_Z (v * 2 ^ e)
            else Qmake v (2 ^ Z.to_pos (- e)))
  | _ => None
  end.

(** [x > n] for a float [x] and an int [n].  Python compares the two
    numbers as they are, without rounding [n]; [nan] is greater than
    nothing. *)
Definition float_gt_int (x : float) (n : Z) : bool :=
  match Prim2SF x with
  | S754_nan => false
  | S754_infinity negative => negb negative
  | _ =>
      match real_of_float x with
      | Some q => negb (Qle_bool q (inject_Z n))
      | None => false
      end
  end.

(** [bool(x)] for a float: every float but the two zeros, [nan] included. *)
Definition float_truthy (x : float) : bool := negb (PrimFloat.eqb x 0).

(** [float(n)] for an int [n] with [0 <= n < 2 ** 63]. *)
Definition float_of_int (n : Z) : float := PrimFloat.of_uint63 (Uint63.of_Z n).

#[global] Arguments real_of_float : simpl never.
#[global] Arguments float_gt_int : simpl never.
#[global] Arguments float_truthy : simpl never.

(** *** Strings *)

Definition chars (s : string) : list ascii := list_ascii_of_string s.

(** [c.lower()] for a character below 256: the capital letters are [A] to
    [Z] and the code points 192 to 222 except the sign 215; each has its
    small letter 32 places further on. *)
Definition lower_char (c : ascii) : ascii :=
  let n := N_of_ascii c in
  if ((65 <=? n) && (n <=? 90)
      || (192 <=? n) && (n <=? 222) && negb (n =? 215))%N
  then ascii_of_N (n + 32) else c.

(** [c.upper()] for a character below 256 whose capital is again one
    character below 256: [a] to [z] and the code points 224 to 254 except
    the sign 247.  The three small letters left, 181, 223 and 255, have
    capitals that are no such character; [upper_char] keeps them, so
    [upper] is [str.upper] on the strings without these three. *)
Definition upper_char (c : ascii) : ascii :=
  let n := N_of_ascii c in
  if ((97 <=? n) && (n <=? 122)
      || (224 <=? n) && (n <=? 254) && negb (n =? 247))%N
  then ascii_of_N (n - 32) else c.

(** [s.lower()] and [s.upper()] *)
Definition lower (s : string) : string :=
  string_of_list_ascii (map lower_char (chars s)).
Definition upper (s : string) : string :=
  string_of_list_ascii (map upper_char (chars s)).

Fixpoint starts_with (p s : list ascii) : bool :=
  match p, s with
  | [], _ => true
  | _ :: _, [] => false
  | a :: p', b :: s' => Ascii.eqb a b && starts_with p' s'
  end.

Fixpoint occurs_in (p s : list ascii) : bool :=
  starts_with p s ||
  match s with
  | [] => false
  | _ :: s' => occurs_in p s'
  end.

(** [needle in hay] on strings *)
Definition contains (needle hay : string) : bool :=
  occurs_in (chars needle) (chars hay).

(** [hay] has [needle] as a contiguous substring. *)
Definition substring_of (needle hay : string) : Prop :=
  ∃ before after, hay = before +:+ needle +:+ after.

(** ['%0<width>x' % n], for [n] below [16 ^ width]. *)
Definition hex_char (d : N) : ascii :=
  nth (N.to_nat d) (chars "0123456789abcdef") "0"%char.

Fixpoint hex_pad (width : nat) (n : N) : list ascii :=
  match width with
  | O => []
  | S w => hex_pad w (n / 16)%N ++ [hex_char (n mod 16)%N]
  end.

(** [s[:k]] *)
Definition str_take (k : nat) (s : string) : string :=
  string_of_list_ascii (take k (chars s)).

(** A decimal digit or a letter among [A]--[F]; the same with [a]--[f]. *)
Definition is_upper_hex (c : ascii) : Prop :=
  let n := N_of_ascii c in
  ((48 ≤ n ∧ n ≤ 57) ∨ (65 ≤ n ∧ n ≤ 70))%N.
Definition is_lower_hex (c : ascii) : Prop :=
  let n := N_of_ascii c in
  ((48 ≤ n ∧ n ≤ 57) ∨ (97 ≤ n ∧ n ≤ 102))%N.

End Py.

(** ** contacts/models.py *)
Module Models.
Import Py.

(** [uuid.uuid4()]: sixteen random bytes, read as a 128-bit integer, with
    the variant and version fields overwritten as [uuid.UUID] does. *)
Definition uuid4 (random_bits : N) : N :=
  let int := (random_bits mod 2 ^ 128)%N in
  let int := N.ldiff int (N.shiftl 0xc000 48) in
  let int := N.lor int (N.shiftl 0x8000 48) in
  let int := N.ldiff int (N.shiftl 0xf000 64) in
  N.lor int (N.shiftl 4 76).

(** [UUID.hex] *)
Definition hex (uuid : N) : string := string_of_list_ascii (hex_pad 32 uuid).

Definition generate_customer_id (random_bits : N) : string :=
  "CUST-" +:+ upper (str_take 12 (hex (uuid4 random_bits))).

Record Address : Type := mkAddress {
  address_id : Z;
  street : string;
  street_number : string;
  city_code : string;
  city : string;
  country : string
}.

Record AppUser : Type := mkAppUser {
  id : Z;
  first_name : string;
  last_name : string;
  gender : option string;
  customer_id : string;
  phone_number : option string;
  address : option Z          (* address_id, NULL when absent *)
}.

Record CustomerRelationship : Type := mkRelationship {
  relationship_id : Z;
  appuser : Z;                (* appuser_id *)
  points : Z
}.

(** The three tables, and how the database server folds the case of a
    text where a lookup ignores case: [UPPER] under the server's locale on
    PostgreSQL, the column's collation on MySQL, the [LIKE] of SQLite.  The
    code leaves it to the database. *)
Record Database : Type := mkDatabase {
  appuser_table : list AppUser;
  address_table : list Address;
  customer_relationship_table : list CustomerRelationship;
  casefold : string → string
}.

(** [user.relationship], the reverse side of the one-to-one field. *)
Definition relationship (d : Database) (u : AppUser)
  : option CustomerRelationship :=
  List.find (fun r => appuser r =? id u) (customer_relationship_table d).

End Models.

(** ** The runtime the application code runs in *)
Module Env.
Import Py Models.

(** What reaches the database connection, in order. *)
Inductive event : Type :=
  | Cursor                          (* [connection.cursor()] *)
  | Execute (sql : string)          (* [cursor.execute(sql)] *)
  | Query (what : string).          (* a queryset is evaluated or counted *)

(** A request object.  [query_params] is present on a DRF [Request] and
    absent on a plain [WSGIRequest]; [_cancelled] is an attribute that
    exists only once something has assigned it. *)
Record Request : Type := mkRequest {
  query_params : option (gmap string string);
  GET : gmap string string;
  _cancelled : option pyval
}.

(** The state every call threads through.  [clock] lists the successive
    readings of [time.time()], [ticks] counts the readings taken so far.
    [request] is the one request object being handled: the view, the mixin
    and the context manager all hold references to it. *)
Record World : Type := mkWorld {
  clock : nat → float;
  ticks : nat;
  vendor : string;                  (* [connection.vendor] *)
  database : Database;
  request : Request;
  trace : list event;
  queries : list string             (* [connection.queries] *)
}.

Definition set_ticks (n : nat) (w : World) : World :=
  mkWorld (clock w) n (vendor w) (database w) (request w) (trace w) (queries w).
Definition set_request (r : Request) (w : World) : World :=
  mkWorld (clock w) (ticks w) (vendor w) (database w) r (trace w) (queries w).
Definition set_trace (t : list event) (w : World) : World :=
  mkWorld (clock w) (ticks w) (vendor w) (database w) (request w) t (queries w).
Definition set_queries (q : list string) (w : World) : World :=
  mkWorld (clock w) (ticks w) (vendor w) (database w) (request w) (trace w) q.
Definition set_database (d : Database) (w : World) : World :=
  mkWorld (clock w) (ticks w) (vendor w) d (request w) (trace w) (queries w).

(** Computations: state passing with exceptions. *)
Definition M (A : Type) : Type := World → result A * World.

#[global] Instance M_ret : MRet M := λ A a w, (Ok a, w).
#[global] Instance M_bind : MBind M := λ A B f m w,
  match m w with
  | (Ok a, w') => f a w'
  | (Raise e, w') => (Raise e, w')
  end.

Definition raise {A : Type} (e : exn) : M A := λ w, (Raise e, w).
Definition gets {A : Type} (f : World → A) : M A := λ w, (Ok (f w), w).
Definition modify (f : World → World) : M unit := λ w, (Ok (), f w).
Definition emit (e : event) : M unit :=
  modify (λ w, set_trace (trace w ++ [e]) w).

(** [time.time()] *)
Definition time_time : M float :=
  λ w, (Ok (clock w (ticks w)), set_ticks (S (ticks w)) w).

(** [request.<attr> = v] for the [_cancelled] attribute *)
Definition set_cancelled (v : pyval) : M unit :=
  modify (λ w, set_request
    (mkRequest (query_params (request w)) (GET (request w)) (Some v)) w).

(** [hasattr(request, '_cancelled') and request._cancelled] *)
Definition is_cancelled (r : Request) : bool :=
  match _cancelled r with
  | Some v => truthy v
  | None => false
  end.

(** An [INSERT], [UPDATE] or [DELETE]: the tables change as [f] says. *)
Definition write (f : Database → Database) : M unit :=
  modify (λ w, set_database (f (database w)) w).

(** [reset_queries()] *)
Definition reset_queries : M unit := modify (set_queries []).

(** [rest_framework.response.Response(data, status=...)] *)
Record Response : Type := mkResponse {
  status_code : Z;
  data : pyval
}.

(** A query-string value or [None], as a Python value. *)
Definition py_of_param (o : option string) : pyval :=
  match o with
  | Some s => PyStr s
  | None => PyNone
  end.

(** Lifting a pure outcome. *)
Definition lift {A : Type} (r : result A) : M A := λ w, (r, w).

(** [try: body finally: cleanup] *)
Definition finally {A : Type} (body : M A) (cleanup : M unit) : M A :=
  λ w,
    match body w with
    | (r, w1) =>
        match cleanup w1 with
        | (Ok _, w2) => (r, w2)
        | (Raise e, w2) => (Raise e, w2)
        end
    end.

(** The query string of a request, whichever kind of object carries it. *)
Definition query_string (r : Request) : gmap string string :=
  match query_params r with
  | Some qp => qp
  | None => GET r
  end.

(** The SQL handed to [cursor.execute], in order. *)
Fixpoint executed (t : list event) : list string :=
  match t with
  | [] => []
  | Execute sql :: t' => sql :: executed t'
  | _ :: t' => executed t'
  end.

(** A computation that leaves the stored rows as they are. *)
Definition read_only {A : Type} (m : M A) : Prop :=
  ∀ w, database (m w).2 = database w.

(** The number of queryset evaluations. *)
Fixpoint evaluations (t : list event) : nat :=
  match t with
  | [] => 0
  | Query _ :: t' => S (evaluations t')
  | _ :: t' => evaluations t'
  end.

End Env.

(** ** contacts/mixins.py *)
Module Mixins.
Import Py Models Env.

Module QueryCancellationContext.

Record t : Type := mk {
  timeout : Z;
  enable_cancellation : bool;
  start_time : option float;
  _cancelled : bool
}.

(** [self.request] is a reference to the request object of the state, which
    the record does not copy. *)
Definition __init__ (request : Request) (timeout : Z)
    (enable_cancellation : bool) : t :=
  mk timeout enable_cancellation None false.

Definition set_start_time (q : float) (self : t) : t :=
  mk (timeout self) (enable_cancellation self) (Some q) (_cancelled self).

Definition _set_query_timeout (timeout : Z) : M unit :=
  db_engine ← gets vendor;
  emit Cursor;;
  if String.eqb db_engine "postgresql" then
    emit (Execute ("SET statement_timeout = " +:+ pretty (timeout * 1000)))
  else if String.eqb db_engine "mysql" then
    emit (Execute ("SET SESSION max_execution_time = "
                     +:+ pretty (timeout * 1000)))
  else mret ().

Definition _reset_query_timeout : M unit :=
  db_engine ← gets vendor;
  emit Cursor;;
  if String.eqb db_engine "postgresql" then
    emit (Execute "SET statement_timeout = DEFAULT")
  else if String.eqb db_engine "mysql" then
    emit (Execute "SET SESSION max_execution_time = DEFAULT")
  else mret ().

Definition __enter__ (self : t) : M t :=
  now ← time_time;
  let self := set_start_time now self in
  (if enable_cancellation self && negb (timeout self =? 0)
   then _set_query_timeout (timeout self)
   else mret ());;
  mret self.

Definition timeout_error (self : t) : exn :=
  mkExn TimeoutError
    ("Query exceeded timeout of " +:+ pretty (timeout self) +:+ " seconds").

Definition request_aborted : exn :=
  mkExn RequestAborted "Request was cancelled".

(** [if self.start_time:] *)
Definition started (self : t) : option float :=
  match start_time self with
  | Some t0 => if float_truthy t0 then Some t0 else None
  | None => None
  end.

(** [elapsed > self.timeout] *)
Definition exceeds (elapsed : float) (timeout : Z) : bool :=
  float_gt_int elapsed timeout.

(** The timeout test shared by [__exit__] and [check_cancellation]. *)
Definition check_timeout (self : t) : M unit :=
  match started self with
  | Some t0 =>
      now ← time_time;
      let elapsed := (now - t0)%float in
      if exceeds elapsed (timeout self) then raise (timeout_error self)
      else mret ()
  | None => mret ()
  end.

Definition check_request (self : t) : M unit :=
  r ← gets request;
  if is_cancelled r then raise request_aborted else mret ().

(** The arguments [exc_type, exc_val, exc_tb] are not read. *)
Definition __exit__ (self : t) (exc : option exn) : M bool :=
  (if enable_cancellation self then _reset_query_timeout else mret ());;
  check_timeout self;;
  check_request self;;
  mret false.

Definition check_cancellation (self : t) : M unit :=
  check_request self;;
  check_timeout self.

End QueryCancellationContext.

(** [with mgr: body].  [Some a]: the body returned [a]; [None]: the body
    raised and [__exit__] swallowed the exception. *)
Definition with_ {A : Type} (mgr : QueryCancellationContext.t)
    (body : QueryCancellationContext.t → M A) : M (option A) :=
  λ w,
    match QueryCancellationContext.__enter__ mgr w with
    | (Raise e, w1) => (Raise e, w1)
    | (Ok self, w1) =>
        match body self w1 with
        | (Ok a, w2) =>
            match QueryCancellationContext.__exit__ self None w2 with
            | (Ok _, w3) => (Ok (Some a), w3)
            | (Raise e, w3) => (Raise e, w3)
            end
        | (Raise e, w2) =>
            match QueryCancellationContext.__exit__ self (Some e) w2 with
            | (Ok true, w3) => (Ok None, w3)
            | (Ok false, w3) => (Raise e, w3)
            | (Raise e', w3) => (Raise e', w3)
            end
        end
    end.

(** The events [__exit__] adds to the trace before it runs its checks. *)
Definition reset_events (self : QueryCancellationContext.t) (w : World)
  : list event :=
  if QueryCancellationContext.enable_cancellation self then
    Cursor ::
      (if String.eqb (vendor w) "postgresql"
       then [Execute "SET statement_timeout = DEFAULT"]
       else if String.eqb (vendor w) "mysql"
       then [Execute "SET SESSION max_execution_time = DEFAULT"]
       else [])
  else [].

Module QueryCancellationMixin.

(** The class attributes a view set carries. *)
Record t : Type := mk {
  query_timeout : Z;
  enable_cancellation : bool
}.

Definition defaults : t := mk 30 true.

Definition get_cancellation_context (self : t) (request : Request)
  : QueryCancellationContext.t :=
  QueryCancellationContext.__init__ request (query_timeout self)
                                    (enable_cancellation self).

Definition check_cancellation (self : t) (request : Request) : M unit :=
  if is_cancelled request
  then raise (mkExn RequestAborted "Request was cancelled")
  else mret ().

Definition _get_query_param (self : t) (request : Request)
    (param_name : string) (default : option string) : option string :=
  match query_params request with
  | Some qp =>                        (* DRF Request object *)
      match qp !! param_name with Some v => Some v | None => default end
  | None =>                           (* Django WSGIRequest object *)
      match GET request !! param_name with Some v => Some v | None => default end
  end.

End QueryCancellationMixin.

End Mixins.

(** ** contacts/views.py *)
Module Views.
Import Py Models Env Mixins.

(** A lazy queryset over [AppUser]: the rows it yields once evaluated. *)
Definition QuerySet : Type := Database → list AppUser.

(** [AppUser.objects.select_related('address', 'relationship').all()] and
    [AppUser.objects]: every row of the table. *)
Definition objects : QuerySet := appuser_table.

(** How the [LIKE] of SQLite ignores case: it folds the 26 letters of
    ASCII and takes every other character as it is. *)
Definition sqlite_fold_char (c : ascii) : ascii :=
  let n := N_of_ascii c in
  if ((97 <=? n) && (n <=? 122))%N then ascii_of_N (n - 32) else c.
Definition sqlite_casefold (s : string) : string :=
  string_of_list_ascii (map sqlite_fold_char (chars s)).

(** [<field>__icontains=pattern]: the database looks for the pattern in
    the value, both with their case folded. *)
Definition icontains (d : Database) (value pattern : string) : bool :=
  contains (casefold d pattern) (casefold d value).

(** [Q(first_name__icontains=name) | Q(last_name__icontains=name)] *)
Definition name_matches (name : string) (d : Database) (u : AppUser) : bool :=
  icontains d (first_name u) name || icontains d (last_name u) name.

(** [address__isnull=True] and [relationship__isnull=True] *)
Definition address__isnull (d : Database) (u : AppUser) : bool :=
  match address u with
  | None => true
  | Some _ => false
  end.
Definition relationship__isnull (d : Database) (u : AppUser) : bool :=
  match relationship d u with
  | None => true
  | Some _ => false
  end.

(** [queryset.filter(cond)] and [queryset.exclude(cond)] *)
Definition qs_filter (cond : Database → AppUser → bool) (qs : QuerySet)
  : QuerySet := λ d, List.filter (cond d) (qs d).
Definition qs_exclude (cond : Database → AppUser → bool) (qs : QuerySet)
  : QuerySet := λ d, List.filter (λ u, negb (cond d u)) (qs d).

(** [queryset.count()] *)
Definition count (what : string) (qs : QuerySet) : M Z :=
  d ← gets database;
  emit (Query what);;
  mret (Z.of_nat (length (qs d))).

(** [ContactViewSet]: [query_timeout = 30]; [enable_cancellation] is
    inherited from the mixin. *)
Definition ContactViewSet : QueryCancellationMixin.t :=
  QueryCancellationMixin.mk 30
    (QueryCancellationMixin.enable_cancellation QueryCancellationMixin.defaults).

(** The handler methods the class has: [list] and [retrieve] from
    [ReadOnlyModelViewSet], [stats] from the [@action] decorator.  [pk] is
    the keyword argument of the URL, a string. *)
Inductive action : Type :=
  | list_action
  | retrieve_action (pk : string)
  | stats_action.

Definition action_name (a : action) : string :=
  match a with
  | list_action => "list"
  | retrieve_action _ => "retrieve"
  | stats_action => "stats"
  end.

(** The handlers a [ModelViewSet] has on top of the read-only ones. *)
Definition write_actions : list string :=
  ["create"; "update"; "partial_update"; "destroy"].

(** [Response({'detail': 'Request cancelled'}, status=499)] *)
Definition cancelled_response : Response :=
  mkResponse 499 (PyDict [("detail", PyStr "Request cancelled")]).

Definition stats_response (total_count with_address with_relationship : Z)
  : Response :=
  mkResponse 200 (PyDict [
    ("total_contacts", PyInt total_count);
    ("contacts_with_address", PyInt with_address);
    ("contacts_with_relationship", PyInt with_relationship)]).

Section Handlers.

(** The framework's share of [list] and [retrieve]: filter backends,
    pagination, lookup by primary key and serialisation.  They read the
    request and the rows handed to them and build a response or raise. *)
Variable render_list : Database → Request → list AppUser → result Response.
Variable render_detail :
  Database → Request → string → list AppUser → result Response.

(** [self.request] is the request object of the state. *)
Definition get_queryset (self : QueryCancellationMixin.t) : M QuerySet :=
  request ← gets Env.request;
  QueryCancellationMixin.check_cancellation self request;;
  let queryset := objects in
  request ← gets Env.request;
  match query_params request with
  | None =>
      raise (mkExn AttributeError
               "'WSGIRequest' object has no attribute 'query_params'")
  | Some qp =>
      match qp !! "name" with
      | Some name_filter =>
          if truthy (PyStr name_filter)
          then mret (qs_filter (name_matches name_filter) queryset)
          else mret queryset
      | None => mret queryset
      end
  end.

(** [ListModelMixin.list] *)
Definition super_list (self : QueryCancellationMixin.t) : M Response :=
  queryset ← get_queryset self;
  d ← gets database;
  r ← gets request;
  emit (Query "contacts");;
  lift (render_list d r (queryset d)).

(** [RetrieveModelMixin.retrieve] *)
Definition super_retrieve (self : QueryCancellationMixin.t) (pk : string)
  : M Response :=
  queryset ← get_queryset self;
  d ← gets database;
  r ← gets request;
  emit (Query "contact");;
  lift (render_detail d r pk (queryset d)).

(** The handlers take the request object of the state as their [request]
    argument, and return [None] when control falls off their end. *)
Definition list_ (self : QueryCancellationMixin.t) : M (option Response) :=
  request ← gets Env.request;
  let cancellation_token :=
    QueryCancellationMixin._get_query_param self request "_cancel" None in
  if truthy (py_of_param cancellation_token) then
    set_cancelled (PyBool true);;
    mret (Some cancelled_response)
  else
    with_ (QueryCancellationMixin.get_cancellation_context self request)
          (λ _, super_list self).

Definition retrieve (self : QueryCancellationMixin.t) (pk : string)
  : M (option Response) :=
  request ← gets Env.request;
  let cancellation_token :=
    QueryCancellationMixin._get_query_param self request "_cancel" None in
  if truthy (py_of_param cancellation_token) then
    set_cancelled (PyBool true);;
    mret (Some cancelled_response)
  else
    with_ (QueryCancellationMixin.get_cancellation_context self request)
          (λ _, super_retrieve self pk).

Definition stats_body : M Response :=
  total_count ← count "appuser" objects;
  with_address ← count "appuser, address set"
                    (qs_exclude address__isnull objects);
  with_relationship ← count "appuser, relationship set"
                         (qs_exclude relationship__isnull objects);
  mret (stats_response total_count with_address with_relationship).

Definition stats (self : QueryCancellationMixin.t) : M (option Response) :=
  request ← gets Env.request;
  let cancellation_token :=
    QueryCancellationMixin._get_query_param self request "_cancel" None in
  if truthy (py_of_param cancellation_token) then
    set_cancelled (PyBool true);;
    mret (Some cancelled_response)
  else
    with_ (QueryCancellationMixin.get_cancellation_context self request)
          (λ _, stats_body).

(** Dispatch of a routed request to its handler. *)
Definition handle (self : QueryCancellationMixin.t) (a : action)
  : M (option Response) :=
  match a with
  | list_action => list_ self
  | retrieve_action pk => retrieve self pk
  | stats_action => stats self
  end.

(** The block each handler wraps in the cancellation context. *)
Definition handler_body (self : QueryCancellationMixin.t) (a : action)
  : M Response :=
  match a with
  | list_action => super_list self
  | retrieve_action pk => super_retrieve self pk
  | stats_action => stats_body
  end.

End Handlers.

End Views.

(** ** rest_framework: the router of [contacts/urls.py] and the generic
    view sets [ContactViewSet] derives from *)
Module Router.
Import Py Models Env Mixins Views.

(** The request methods Django dispatches on ([View.http_method_names]),
    and any other. *)
Inductive http_method : Type :=
  | GET | POST | PUT | PATCH | DELETE | HEAD | OPTIONS | TRACE
  | OTHER (name : string).

Definition same_method (m1 m2 : http_method) : bool :=
  match m1, m2 with
  | GET, GET | POST, POST | PUT, PUT | PATCH, PATCH | DELETE, DELETE
  | HEAD, HEAD | OPTIONS, OPTIONS | TRACE, TRACE => true
  | OTHER a, OTHER b => String.eqb a b
  | _, _ => false
  end.

(** [rest_framework.mixins]: the handler methods each mixin defines. *)
Inductive mixin : Type :=
  | CreateModelMixin
  | ListModelMixin
  | RetrieveModelMixin
  | UpdateModelMixin
  | DestroyModelMixin.

Definition handlers_of (m : mixin) : list string :=
  match m with
  | CreateModelMixin => ["create"]
  | ListModelMixin => ["list"]
  | RetrieveModelMixin => ["retrieve"]
  | UpdateModelMixin => ["update"; "partial_update"]
  | DestroyModelMixin => ["destroy"]
  end.

(** [viewsets.ReadOnlyModelViewSet] and [viewsets.ModelViewSet] *)
Definition ReadOnlyModelViewSet : list mixin :=
  [RetrieveModelMixin; ListModelMixin].
Definition ModelViewSet : list mixin :=
  [CreateModelMixin; RetrieveModelMixin; UpdateModelMixin;
   DestroyModelMixin; ListModelMixin].

(** A method decorated with [@action(detail=..., methods=[...])]; its URL
    path is its name. *)
Record ExtraAction : Type := mkAction {
  name : string;
  detail : bool;
  methods : list http_method
}.

(** A view set class as the router reads it: the mixins among its bases,
    the methods its body defines and its extra actions. *)
Record ViewSetClass : Type := mkClass {
  bases : list mixin;
  body : list string;
  extra_actions : list ExtraAction
}.

(** [class ContactViewSet(QueryCancellationMixin,
    viewsets.ReadOnlyModelViewSet)] *)
Definition ContactViewSet_class : ViewSetClass :=
  mkClass ReadOnlyModelViewSet
          ["get_queryset"; "list"; "retrieve"; "stats"]
          [mkAction "stats" false [GET]].

(** [hasattr(viewset, attr)], for the names of handlers *)
Definition hasattr (cls : ViewSetClass) (attr : string) : bool :=
  existsb (String.eqb attr) (body cls ++ flat_map handlers_of (bases cls)).

(** [SimpleRouter.routes], in the order in which the URL patterns are
    tried: the list route, the extra actions of the collection, the detail
    route, the extra actions of a member. *)
Inductive route : Type :=
  | list_route
  | dynamic_list_route (a : ExtraAction)
  | detail_route
  | dynamic_detail_route (a : ExtraAction).

Definition mapping (r : route) : list (http_method * string) :=
  match r with
  | list_route => [(GET, "list"); (POST, "create")]
  | detail_route =>
      [(GET, "retrieve"); (PUT, "update"); (PATCH, "partial_update");
       (DELETE, "destroy")]
  | dynamic_list_route a | dynamic_detail_route a =>
      map (λ m, (m, name a)) (methods a)
  end.

Definition get_routes (cls : ViewSetClass) : list route :=
  [list_route]
  ++ map dynamic_list_route
       (List.filter (λ a, negb (detail a)) (extra_actions cls))
  ++ [detail_route]
  ++ map dynamic_detail_route (List.filter detail (extra_actions cls)).

(** [get_method_map]: only the actions the view set has are bound. *)
Definition get_method_map (cls : ViewSetClass)
    (method_map : list (http_method * string))
  : list (http_method * string) :=
  List.filter (λ binding, hasattr cls binding.2) method_map.

(** [get_urls]: a route that binds no method gets no URL. *)
Definition get_urls (cls : ViewSetClass)
  : list (route * list (http_method * string)) :=
  List.filter (λ url, match url.2 with [] => false | _ => true end)
    (map (λ r, (r, get_method_map cls (mapping r))) (get_routes cls)).

(** Whether the pattern of a route matches a path, given by its segments
    after the prefix [api/contacts/]; a match yields the [pk] keyword
    argument, if the pattern has one. *)
Definition matches (r : route) (path : list string)
  : option (option string) :=
  match r, path with
  | list_route, [] => Some None
  | dynamic_list_route a, [url_path] =>
      if String.eqb url_path (name a) then Some None else None
  | detail_route, [pk] => Some (Some pk)
  | dynamic_detail_route a, [pk; url_path] =>
      if String.eqb url_path (name a) then Some (Some pk) else None
  | _, _ => None
  end.

Fixpoint resolve (urls : list (route * list (http_method * string)))
    (path : list string)
  : option (list (http_method * string) * option string) :=
  match urls with
  | [] => None
  | (r, actions) :: urls' =>
      match matches r path with
      | Some pk => Some (actions, pk)
      | None => resolve urls' path
      end
  end.

(** The action a view calls for a request method.  [as_view] gives [HEAD]
    the handler of [GET] when it has none of its own. *)
Definition bound_action (actions : list (http_method * string))
    (m : http_method) : option string :=
  snd <$> List.find (λ binding, same_method binding.1 m) actions.

Definition action_for (actions : list (http_method * string))
    (m : http_method) : option string :=
  match bound_action actions m with
  | Some a => Some a
  | None =>
      match m with
      | HEAD => bound_action actions GET
      | _ => None
      end
  end.

(** What becomes of a request. *)
Inductive served : Type :=
  | NotFound                          (* no URL pattern matches *)
  | MethodNotAllowed                  (* [http_method_not_allowed]: 405 *)
  | Metadata                          (* [APIView.options] *)
  | Handled (action : string) (response : option Response).

Section Dispatch.

Variable render_list : Database → Request → list AppUser → result Response.
Variable render_detail :
  Database → Request → string → list AppUser → result Response.

(** The handlers a view set inherits from the mixins without defining
    them itself: what [create], [update], [partial_update] and [destroy] of
    the framework do to the tables is left open. *)
Variable inherited : string → option string → M (option Response).

(** [getattr(self, action)] on a [ContactViewSet]: its own [list],
    [retrieve] and [stats], else what it inherits. *)
Definition handler (self : QueryCancellationMixin.t) (action : string)
    (pk : option string) : M (option Response) :=
  if String.eqb action "list" then list_ render_list self
  else if String.eqb action "stats" then stats self
  else
    match pk with
    | Some pk =>
        if String.eqb action "retrieve"
        then retrieve render_detail self pk
        else inherited action (Some pk)
    | None => inherited action None
    end.

(** [APIView.dispatch] behind the URL resolver, for a view set class with
    the methods of [ContactViewSet]. *)
Definition serve (cls : ViewSetClass) (self : QueryCancellationMixin.t)
    (m : http_method) (path : list string) : M served :=
  match resolve (get_urls cls) path with
  | None => mret NotFound
  | Some (actions, pk) =>
      match action_for actions m with
      | Some action =>
          response ← handler self action pk;
          mret (Handled action response)
      | None =>
          match m with
          | OPTIONS => mret Metadata
          | _ => mret MethodNotAllowed
          end
      end
  end.

End Dispatch.

End Router.

(** ** contacts/benchmarks.py *)
Module Benchmarks.
Import Py Models Env.

(** The record [measure_time] returns; a field holding [None] is [PyNone]. *)
Record Measurement : Type := mkMeasurement {
  execution_time_ms : float;
  query_count : Z;
  status_code : pyval;
  result_count : pyval;
  error : pyval
}.

(** [len(connection.queries)] *)
Definition len_queries : M Z := gets (λ w, Z.of_nat (length (queries w))).

(** The result count read off the response payload. *)
Definition count_results (results_data : pyval) : result pyval :=
  match results_data with
  | PyDict d =>
      match dict_get "results" d with
      | Some results =>
          match py_len results with
          | Ok n => Ok (PyInt (Z.of_nat n))
          | Raise e => Raise e
          end
      | None => Ok PyNone
      end
  | PyList l => Ok (PyInt (Z.of_nat (length l)))
  | _ => Ok PyNone
  end.

(** The [except] clauses of [measure_time]; [status_code] and
    [result_count] keep what the [try] block had assigned. *)
Definition handle_exception (start_time : float) (status_code result_count : pyval)
    (e : exn) : M Measurement :=
  if is_OperationalError (exn_cls e) then
    end_time ← time_time;
    let execution_time := ((end_time - start_time) * 1000)%float in
    query_count ← len_queries;
    let error := exn_msg e in
    let error :=
      if contains "timeout" (lower error) || contains "QueryCanceled" error
      then "TIMEOUT" else error in
    mret (mkMeasurement execution_time query_count status_code result_count
                        (PyStr error))
  else if is_Exception (exn_cls e) then
    end_time ← time_time;
    let execution_time := ((end_time - start_time) * 1000)%float in
    query_count ← len_queries;
    let error := exn_msg e in
    mret (mkMeasurement execution_time query_count status_code result_count
                        (PyStr error))
  else raise e.

Definition measure_time (func : M (option pyobj)) : M Measurement :=
  reset_queries;;
  start_time ← time_time;
  finally
    (λ w,
       match func w with
       | (Raise e, w1) => handle_exception start_time PyNone PyNone e w1
       | (Ok result_obj, w1) =>
           (end_time ← time_time;
            let execution_time := ((end_time - start_time) * 1000)%float in
            query_count ← len_queries;
            let status_code :=
              match result_obj ≫= attr_status_code with
              | Some v => v
              | None => PyNone
              end in
            match result_obj ≫= attr_data with
            | Some results_data =>
                match count_results results_data with
                | Ok result_count =>
                    mret (mkMeasurement execution_time query_count status_code
                                        result_count PyNone)
                | Raise e => handle_exception start_time status_code PyNone e
                end
            | None =>
                mret (mkMeasurement execution_time query_count status_code
                                    PyNone PyNone)
            end) w1
       end)
    reset_queries.

(** A [Response] seen as an object with both attributes. *)
Definition obj_of_response (r : Response) : pyobj :=
  mkObj (Some (PyInt (Env.status_code r))) (Some (data r)).

(** *** Page selection of [benchmark_pagination_all_pages] *)

(** [random.sample(population, k)]: [k] elements from distinct positions
    of the population; the [i]-th pick is decided by the [i]-th draw of the
    generator. *)
Fixpoint sample_from (draws : nat → nat) (i : nat) (pool : list Z) (k : nat)
  : list Z :=
  match k with
  | O => []
  | S k' =>
      let j := (draws i `mod` length pool)%nat in
      match pool !! j with
      | Some x => x :: sample_from draws (S i) (delete j pool) k'
      | None => []
      end
  end.

Definition random_sample (draws : nat → nat) (population : list Z) (k : Z)
  : result (list Z) :=
  if (k <? 0) || (Z.of_nat (length population) <? k)
  then Raise (mkExn ValueError "Sample larger than population or is negative")
  else Ok (sample_from draws 0 population (Z.to_nat k)).

(** [sorted(l)] and [sorted(set(l))] *)
Definition sorted (l : list Z) : list Z := merge_sort Z.le l.
Definition sorted_set (l : list Z) : list Z := sorted (remove_dups l).

(** [(total_count + page_size - 1) // page_size] *)
Definition total_pages (total_count page_size : Z) : result Z :=
  if page_size =? 0
  then Raise (mkExn ZeroDivisionError "integer division or modulo by zero")
  else Ok ((total_count + page_size - 1) `div` page_size).

Definition middle_page (total_pages : Z) : Z := (total_pages + 1) `div` 2.

(** The pages fetched when there is more than one page. *)
Definition pages_to_test (draws : nat → nat) (total_pages num_random_pages : Z)
  : result (list Z) :=
  let pages_to_test := [1] in
  let middle_page := middle_page total_pages in
  let pages_to_test :=
    if negb (middle_page =? 1) then pages_to_test ++ [middle_page]
    else pages_to_test in
  let last_page := total_pages in
  let pages_to_test :=
    if negb (last_page =? 1) && negb (last_page =? middle_page)
    then pages_to_test ++ [last_page]
    else pages_to_test in
  let available_pages :=
    List.filter (λ p, negb (bool_decide (p ∈ pages_to_test)))
                (seqZ 2 (total_pages + 1 - 2)) in
  if (0 <? length available_pages)%nat then
    let num_random := Z.min num_random_pages (Z.of_nat (length available_pages)) in
    match random_sample draws available_pages num_random with
    | Ok picked => Ok (sorted_set (pages_to_test ++ sorted picked))
    | Raise e => Raise e
    end
  else Ok (sorted_set pages_to_test).

(** What the benchmark settles once page 1 has been fetched without error:
    [None] when there is nothing to page through, else the number of pages
    and the pages it tests. *)
Definition page_plan (draws : nat → nat)
    (page_size num_random_pages total_count : Z) : result (option (Z * list Z)) :=
  if total_count =? 0 then Ok None
  else
    match total_pages total_count page_size with
    | Raise e => Raise e
    | Ok total_pages =>
        if total_pages <=? 1 then Ok (Some (1, [1]))
        else
          match pages_to_test draws total_pages num_random_pages with
          | Ok pages => Ok (Some (total_pages, pages))
          | Raise e => Raise e
          end
    end.

End Benchmarks.


(** ** Concrete states, for the examples *)
Module Samples.
Import Py Models Env Mixins Views Benchmarks.

Definition home : Address :=
  mkAddress 1 "Main Street" "12" "10115" "Berlin" "Germany".

Definition alice : AppUser :=
  mkAppUser 1 "Alice" "Smith" (Some "F") "CUST-0123456789AB" None (Some 1).
Definition bob : AppUser :=
  mkAppUser 2 "Bob" "Malik" None "CUST-BA9876543210" (Some "555-0100") None.
Definition carol : AppUser :=
  mkAppUser 3 "Carol" "Jones" (Some "O") "CUST-00FF00FF00FF" None (Some 1).

(** A PostgreSQL database under a single-byte locale: [UPPER] is [upper]. *)
Definition db : Database :=
  mkDatabase [alice; bob; carol] [home] [mkRelationship 1 2 50] upper.

(** A DRF request with the given query string and [_cancelled] attribute. *)
Definition drf_request (params : gmap string string) (flag : option pyval)
  : Request := mkRequest (Some params) params flag.

(** A clock that advances by [step] seconds between two readings. *)
Definition stepping_clock (step : Z) (n : nat) : float :=
  float_of_int (1700000000 + step * Z.of_nat n).

Definition world (step : Z) (engine : string) (r : Request) : World :=
  mkWorld (stepping_clock step) 0 engine db r [] [].

Definition plain_world : World := world 1 "postgresql" (drf_request ∅ None).
Definition slow_world : World := world 40 "postgresql" (drf_request ∅ None).
Definition mysql_world : World := world 1 "mysql" (drf_request ∅ None).
Definition sqlite_world : World := world 1 "sqlite" (drf_request ∅ None).
Definition search_world : World :=
  world 1 "postgresql" (drf_request {["name" := "ALI"]} None).
Definition cancel_token_world : World :=
  world 1 "postgresql" (drf_request {["_cancel" := "1"]} None).
Definition cancelled_world : World :=
  world 1 "postgresql"
    (drf_request {["name" := "ALI"]} (Some (PyBool true))).

(** A clock that reads 0.1 at first and 30.1 from then on, and a clock
    started at the epoch that reads 0.0 and then 100.0. *)
Definition boundary_clock (n : nat) : float :=
  match n with
  | O => 0x1.999999999999ap-4
  | S _ => 0x1.e19999999999ap+4
  end.
Definition epoch_clock (n : nat) : float :=
  match n with
  | O => 0
  | S _ => 100
  end.
Definition boundary_world : World :=
  mkWorld boundary_clock 0 "postgresql" db (drf_request ∅ None) [] [].
Definition epoch_world : World :=
  mkWorld epoch_clock 0 "postgresql" db (drf_request ∅ None) [] [].


(** [ContactViewSet] as it would be with [ModelViewSet] for its base, and
    writing handlers that empty the contact tables. *)
Definition writable_class : Router.ViewSetClass :=
  Router.mkClass Router.ModelViewSet
    (Router.body Router.ContactViewSet_class)
    (Router.extra_actions Router.ContactViewSet_class).
Definition wiping (action : string) (pk : option string)
  : M (option Response) :=
  write (λ d, mkDatabase [] (address_table d) [] (casefold d));;
  mret (Some (mkResponse 204 PyNone)).

Definition render_ids (d : Database) (r : Request) (rows : list AppUser)
  : result Response :=
  Ok (mkResponse 200 (PyList (map (λ u, PyInt (id u)) rows))).
Definition render_one (d : Database) (r : Request) (pk : string)
    (rows : list AppUser) : result Response :=
  match List.find (λ u, String.eqb (pretty (id u)) pk) rows with
  | Some u => Ok (mkResponse 200 (PyStr (customer_id u)))
  | None => Ok (mkResponse 404 (PyDict [("detail", PyStr "Not found.")]))
  end.

(** Benchmarked functions: one that is interrupted from the keyboard, one
    whose query is cancelled by the database, one that answers with a page
    of two results, and one whose payload has [None] for its results. *)
Definition interrupted : M (option pyobj) :=
  raise (mkExn KeyboardInterrupt EmptyString).
Definition timed_out : M (option pyobj) :=
  raise (mkExn OperationalError
           "canceling statement due to statement Timeout").
Definition page_of_two : M (option pyobj) :=
  mret (Some (obj_of_response
    (mkResponse 200 (PyDict [("count", PyInt 2);
                             ("results", PyList [PyInt 1; PyInt 2])])))).
Definition no_results : M (option pyobj) :=
  mret (Some (obj_of_response
    (mkResponse 200 (PyDict [("results", PyNone)])))).

End Samples.

(** ** contacts/mixins.py: the asynchronous context manager *)
Module AsyncMixins.
Import Py Models Env Mixins.

Module AsyncQueryCancellationContext.

Record t : Type := mk {
  timeout : Z;
  start_time : option float;
  task : option nat               (* set by [__aenter__] *)
}.

Definition __init__ (request : Request) (timeout : Z) : t :=
  mk timeout None None.


Definition timeout_error (self : t) : exn :=
  mkExn TimeoutError
    ("Query exceeded timeout of " +:+ pretty (timeout self) +:+ " seconds").


End AsyncQueryCancellationContext.

Module AsyncQueryCancellationMixin.

Definition query_timeout : Z := 30.

Definition get_cancellation_context (request : Request)
  : AsyncQueryCancellationContext.t :=
  AsyncQueryCancellationContext.__init__ request query_timeout.

End AsyncQueryCancellationMixin.

End AsyncMixins.

(** ** What an observer of a run can tell *)
Module Observations.
Import Py Models Env Mixins.

(** The events [__enter__] adds to the trace. *)
Definition enter_events (self : QueryCancellationContext.t) (w : World)
  : list event :=
  if QueryCancellationContext.enable_cancellation self
     && negb (QueryCancellationContext.timeout self =? 0)
  then Cursor ::
    (if String.eqb (vendor w) "postgresql"
     then [Execute ("SET statement_timeout = "
             +:+ pretty (QueryCancellationContext.timeout self * 1000))]
     else if String.eqb (vendor w) "mysql"
     then [Execute ("SET SESSION max_execution_time = "
             +:+ pretty (QueryCancellationContext.timeout self * 1000))]
     else [])
  else [].

(** Whether the time limit of an entered context is exceeded at the clock
    reading [now]; a context whose [start_time] is unset or zero has none. *)
Definition late (self : QueryCancellationContext.t) (now : float) : bool :=
  match QueryCancellationContext.started self with
  | Some t0 =>
      QueryCancellationContext.exceeds (now - t0)%float
        (QueryCancellationContext.timeout self)
  | None => false
  end.

End Observations.

(** ** contacts/benchmarks.py: the other methods of [BenchmarkRunner] *)
Module Runner.
Import Py Models Env Benchmarks.

(** Pagination classes: the one this module defines, and any other. *)
Inductive pagination : Type :=
  | NoPagination
  | PaginationClass (name : string).

(** [ContactViewSet.pagination_class], a class attribute ([None] also when
    the attribute is missing), and [self.original_pagination]. *)
Record PaginationState : Type := mkPagination {
  pagination_class : option pagination;
  original_pagination : option pagination
}.

(** The view returned is [ContactViewSet.as_view({'get': 'list'})] in both
    branches; what varies is the parameters and the state. *)
Definition _setup_pagination (use_pagination : bool) (page_size : pyval)
    (s : PaginationState) : list (string * pyval) * PaginationState :=
  if use_pagination then
    let params := [] in
    let params :=
      if truthy page_size then params ++ [("page_size", page_size)]
      else params in
    (params, s)
  else
    let original :=
      match original_pagination s with
      | None => pagination_class s
      | Some p => Some p
      end in
    ([], mkPagination (Some NoPagination) original).

Definition _restore_pagination (s : PaginationState) : PaginationState :=
  match original_pagination s with
  | Some p => mkPagination (Some p) None
  | None => s
  end.

(** [gc.collect()] has no effect on the state. *)
Definition _cleanup_after_test : M unit := reset_queries.

Definition _run_benchmark_with_cleanup {A : Type} (benchmark_func : M A)
  : M A :=
  finally benchmark_func _cleanup_after_test.

(** The record [_fetch_page] returns. *)
Record PageResult : Type := mkPageResult {
  page : Z;
  execution_time_ms : float;
  query_count : Z;
  result_count : pyval;
  status_code : pyval;
  error : pyval;
  total_count : pyval;
  has_next : bool
}.

(** [result_count], [total_count] and [has_next], read off the response. *)
Definition page_metadata (response_obj : option pyobj)
  : result (pyval * pyval * bool) :=
  match response_obj ≫= attr_data with
  | Some (PyDict data) =>
      match dict_get "results" data with
      | Some results =>
          match py_len results with
          | Ok n =>
              let has_next :=
                match dict_get "next" data with
                | Some PyNone | None => false
                | Some _ => true
                end in
              let total_count :=
                match dict_get "count" data with
                | Some v => v
                | None => PyInt 0
                end in
              Ok (PyInt (Z.of_nat n), total_count, has_next)
          | Raise e => Raise e
          end
      | None => Ok (PyInt 0, PyInt 0, false)
      end
  | Some (PyList data) => Ok (PyInt (Z.of_nat (length data)), PyInt 0, false)
  | _ => Ok (PyInt 0, PyInt 0, false)
  end.

(** The [except] clauses of [_fetch_page]. *)
Definition fetch_failed (page_num : Z) (start_time : float) (e : exn)
  : M PageResult :=
  if is_OperationalError (exn_cls e) then
    end_time ← time_time;
    let execution_time := ((end_time - start_time) * 1000)%float in
    query_count ← len_queries;
    let error := exn_msg e in
    let error :=
      if contains "timeout" (lower error) || contains "QueryCanceled" error
      then "TIMEOUT" else error in
    mret (mkPageResult page_num execution_time query_count (PyInt 0) PyNone
                       (PyStr error) (PyInt 0) false)
  else if is_Exception (exn_cls e) then
    end_time ← time_time;
    let execution_time := ((end_time - start_time) * 1000)%float in
    query_count ← len_queries;
    let error := exn_msg e in
    mret (mkPageResult page_num execution_time query_count (PyInt 0) PyNone
                       (PyStr error) (PyInt 0) false)
  else raise e.

(** [view] stands for the view applied to the request the factory builds
    from [params]. *)
Definition _fetch_page (view : list (string * pyval) → M (option pyobj))
    (params : list (string * pyval)) (page_num : Z) : M PageResult :=
  reset_queries;;
  start_time ← time_time;
  finally
    (λ w,
       match view params w with
       | (Raise e, w1) => fetch_failed page_num start_time e w1
       | (Ok response_obj, w1) =>
           (end_time ← time_time;
            let execution_time := ((end_time - start_time) * 1000)%float in
            query_count ← len_queries;
            let status_code :=
              match response_obj ≫= attr_status_code with
              | Some v => v
              | None => PyNone
              end in
            match page_metadata response_obj with
            | Ok (result_count, total_count, has_next) =>
                mret (mkPageResult page_num execution_time query_count
                        result_count status_code PyNone total_count has_next)
            | Raise e => fetch_failed page_num start_time e
            end) w1
       end)
    reset_queries.

(** What [benchmark_pagination_all_pages] decides from the [error] and the
    (integer) [total_count] of the first page: [None] when the page failed
    or reported no item, else the page plan. *)
Definition after_first_page (draws : nat → nat)
    (page_size num_random_pages : Z) (error : pyval) (total_count : Z)
  : result (option (Z * list Z)) :=
  if truthy error then Ok None
  else page_plan draws page_size num_random_pages total_count.

End Runner.

(** ** contacts/migrations/0004_enable_pg_trgm.py *)
Module Migrations.
Import Py Env.

(** What the database answers: to the [SELECT EXISTS] query, to
    [CREATE EXTENSION] and to [DROP EXTENSION]. *)
Record Server : Type := mkServer {
  select_exists : result bool;
  create_extension : result unit;
  drop_extension : result unit
}.

Definition select_sql : string := "
            SELECT EXISTS(
                SELECT 1 FROM pg_extension WHERE extname = 'pg_trgm'
            );
        ".

Definition permission_help : string := "Permission denied to create pg_trgm extension. Please run this SQL as a database superuser:
  CREATE EXTENSION IF NOT EXISTS pg_trgm;

Or grant the necessary permissions to your database user:
  GRANT CREATE ON DATABASE your_database_name TO your_user;".

Definition enable_pg_trgm_extension (server : Server) : M unit :=
  emit Cursor;;
  emit (Execute select_sql);;
  exists_ ← lift (select_exists server);
  if negb exists_ then
    emit (Execute "CREATE EXTENSION IF NOT EXISTS pg_trgm;");;
    match create_extension server with
    | Ok _ => mret ()
    | Raise e =>
        if is_Exception (exn_cls e) then
          if contains "permission denied" (lower (exn_msg e))
             || contains "insufficientprivilege" (lower (exn_msg e))
          then raise (mkExn OtherException permission_help)
          else raise e
        else raise e
    end
  else mret ().

Definition disable_pg_trgm_extension (server : Server) : M unit :=
  emit Cursor;;
  emit (Execute "DROP EXTENSION IF EXISTS pg_trgm;");;
  lift (drop_extension server).

End Migrations.

(** ** More concrete states, for the examples of the further properties *)
Module MoreSamples.
Import Py Models Env Mixins Views Benchmarks Samples.

(** A context that was entered at the first reading of the clock. *)
Definition entered (timeout : Z) (enable : bool)
  : QueryCancellationContext.t :=
  QueryCancellationContext.mk timeout enable (Some (stepping_clock 1 0)) false.


(** The state in which the clock is read for the second time. *)
Definition second_reading (w : World) : World := set_ticks 1 w.

(** A cancelled request on a clock that advances by 40 seconds. *)
Definition slow_cancelled_world : World :=
  world 40 "postgresql" (drf_request ∅ (Some (PyBool true))).

Definition failing : QueryCancellationContext.t → M unit :=
  λ _, raise (mkExn ValueError "boom").


(** A benchmarked function that logs two queries and answers with a page. *)
Definition two_queries : M (option pyobj) :=
  modify (λ w, set_queries (queries w ++ ["SELECT 1"; "SELECT 2"]) w);;
  page_of_two.

Definition paged_response : Response :=
  mkResponse 200 (PyDict [("count", PyInt 2);
                          ("next", PyStr "http://testserver/?page=2");
                          ("results", PyList [PyInt 1; PyInt 2])]).

Definition paged_view (params : list (string * pyval)) : M (option pyobj) :=
  mret (Some (obj_of_response paged_response)).

Definition contact_pagination : Runner.PaginationState :=
  Runner.mkPagination (Some (Runner.PaginationClass "ContactPagination")) None.

(** A server on which the extension is missing and the user may not create
    it. *)
Definition unprivileged : Migrations.Server :=
  Migrations.mkServer (Ok false)
    (Raise (mkExn OperationalError
              "Permission denied to create extension pg_trgm"))
    (Ok ()).

End MoreSamples.

(** * Properties *)

Import Py Models Env Mixins Views Benchmarks Samples.

(** ** Strings *)
Section StringFacts.

Lemma chars_of_list (l : list ascii) : chars (string_of_list_ascii l) = l.
Proof. apply list_ascii_of_string_of_list_ascii. Qed.

Lemma of_list_chars (s : string) : string_of_list_ascii (chars s) = s.
Proof. apply string_of_list_ascii_of_string. Qed.

Lemma chars_app (a b : string) : chars (a +:+ b) = chars a ++ chars b.
Proof. induction a as [|c a IH]; simpl; [done | by rewrite <- IH]. Qed.

Lemma length_chars (s : string) : length (chars s) = String.length s.
Proof. induction s as [|c s IH]; simpl; [done | by rewrite <- IH]. Qed.

Lemma of_list_app (l1 l2 : list ascii) :
  string_of_list_ascii (l1 ++ l2)
  = string_of_list_ascii l1 +:+ string_of_list_ascii l2.
Proof. induction l1 as [|c l1 IH]; simpl; [done | by rewrite IH]. Qed.

Lemma starts_with_spec (p s : list ascii) :
  starts_with p s = true ↔ ∃ r, s = p ++ r.
Proof.
  revert s. induction p as [|a p IH]; intros s; simpl.
  - split; [intros _; by exists s | done].
  - destruct s as [|b s].
    + split; [done | intros [r Hr]; discriminate].
    + rewrite andb_true_iff, Ascii.eqb_eq, IH. split.
      * intros [-> [r ->]]. by exists r.
      * intros [r Hr]. injection Hr as -> ->. eauto.
Qed.

Lemma occurs_in_spec (p s : list ascii) :
  occurs_in p s = true ↔ ∃ l r, s = l ++ p ++ r.
Proof.
  induction s as [|b s IH]; simpl; rewrite orb_true_iff, starts_with_spec.
  - split.
    + intros [[r Hr] | ?]; [|done]. by exists [], r.
    + intros (l & r & Hs). left.
      destruct l; [by exists r | discriminate].
  - rewrite IH. split.
    + intros [[r Hr] | (l & r & ->)]; [by exists [], r |].
      by exists (b :: l), r.
    + intros (l & r & Hs). destruct l as [|c l]; simpl in Hs.
      * left. by exists r.
      * right. injection Hs as _ ->. by exists l, r.
Qed.

Lemma contains_spec (needle hay : string) :
  contains needle hay = true ↔ substring_of needle hay.
Proof.
  unfold contains, substring_of. rewrite occurs_in_spec. split.
  - intros (l & r & Hs).
    exists (string_of_list_ascii l), (string_of_list_ascii r).
    rewrite <- (of_list_chars hay), Hs, !of_list_app.
    by rewrite of_list_chars.
  - intros (a & b & ->). exists (chars a), (chars b).
    by rewrite !chars_app.
Qed.

End StringFacts.

(** ** models.py: customer identifiers *)
Section CustomerId.

Lemma hex_char_lower (d : N) : (d < 16)%N → is_lower_hex (hex_char d).
Proof.
  intros Hd. unfold hex_char.
  assert (N.to_nat d < 16)%nat as Hk by lia.
  generalize dependent (N.to_nat d). intros k Hk.
  do 16 (destruct k as [|k]; [unfold is_lower_hex; simpl; lia |]).
  lia.
Qed.

Lemma hex_pad_length (width : nat) (n : N) : length (hex_pad width n) = width.
Proof.
  revert n. induction width as [|w IH]; intros n; simpl; [done |].
  rewrite length_app, IH. simpl. lia.
Qed.

Lemma hex_pad_lower (width : nat) (n : N) :
  Forall is_lower_hex (hex_pad width n).
Proof.
  revert n. induction width as [|w IH]; intros n; simpl; [constructor |].
  apply Forall_app. split; [apply IH |].
  constructor; [|constructor].
  apply hex_char_lower, N.mod_lt. lia.
Qed.

Lemma upper_char_hex (c : ascii) : is_lower_hex c → is_upper_hex (upper_char c).
Proof.
  destruct c as [[] [] [] [] [] [] [] []];
    unfold is_lower_hex, is_upper_hex; vm_compute; intuition congruence.
Qed.

End CustomerId.

(** C9.  Whatever the random bits, [generate_customer_id] returns the five
    characters [CUST-] followed by exactly twelve characters, each a decimal
    digit or an upper-case letter among A--F: seventeen characters in all. *)
Theorem generate_customer_id_format (random_bits : N) :
  ∃ suffix : string,
    generate_customer_id random_bits = "CUST-" +:+ suffix
    ∧ String.length (generate_customer_id random_bits) = 17%nat
    ∧ String.length suffix = 12%nat
    ∧ Forall is_upper_hex (chars suffix).
Proof.
  unfold generate_customer_id.
  set (digits := take 12 (hex_pad 32 (uuid4 random_bits))).
  assert (upper (str_take 12 (hex (uuid4 random_bits)))
          = string_of_list_ascii (map upper_char digits)) as Hsuffix.
  { unfold upper, str_take, hex. by rewrite !chars_of_list. }
  assert (length digits = 12%nat) as Hlen.
  { unfold digits. rewrite length_take, hex_pad_length. lia. }
  assert (Forall is_lower_hex digits) as Hhex.
  { apply Forall_take, hex_pad_lower. }
  clearbody digits.
  exists (upper (str_take 12 (hex (uuid4 random_bits)))).
  rewrite Hsuffix.
  assert (String.length (string_of_list_ascii (map upper_char digits)) = 12%nat)
    as Hsize by (by rewrite <- length_chars, chars_of_list, length_map).
  split; [done |]. split; [|split; [done |]].
  - change (S (S (S (S (S (String.length
      (string_of_list_ascii (map upper_char digits))))))) = 17%nat).
    by rewrite Hsize.
  - rewrite chars_of_list. apply Forall_map.
    eapply Forall_impl; [exact upper_char_hex | exact Hhex].
Qed.

(** ** mixins.py: the cancellation context *)

Ltac run :=
  unfold QueryCancellationContext.__enter__, QueryCancellationContext.__exit__,
    QueryCancellationContext._set_query_timeout,
    QueryCancellationContext._reset_query_timeout,
    QueryCancellationContext.check_timeout,
    QueryCancellationContext.check_request,
    QueryCancellationContext.started,
    QueryCancellationMixin.check_cancellation,
    QueryCancellationMixin._get_query_param,
    mbind, M_bind, mret, M_ret, gets, emit, modify, raise, lift, time_time,
    set_cancelled, reset_queries in *;
  simpl in *.

Section Trace.

Lemma executed_app (t1 t2 : list event) :
  executed (t1 ++ t2) = executed t1 ++ executed t2.
Proof.
  induction t1 as [|e t1 IH]; simpl; [done |].
  destruct e; simpl; by rewrite ?IH.
Qed.

(** [_reset_query_timeout] always returns; it only extends the trace. *)
Lemma reset_query_timeout_runs (w : World) :
  ∃ t, QueryCancellationContext._reset_query_timeout w
       = (Ok (), set_trace (trace w ++ Cursor :: t) w)
     ∧ (t = if String.eqb (vendor w) "postgresql"
            then [Execute "SET statement_timeout = DEFAULT"]
            else if String.eqb (vendor w) "mysql"
            then [Execute "SET SESSION max_execution_time = DEFAULT"]
            else []).
Proof.
  run. destruct w as [c k v d r t q]; simpl.
  destruct (String.eqb v "postgresql"); [|destruct (String.eqb v "mysql")];
    eexists; (split; [|reflexivity]); unfold set_trace; simpl;
    by rewrite <- ?app_assoc.
Qed.

End Trace.

Section ContextManager.

(** [__enter__] always returns: it records the clock reading and, when
    cancellation is enabled and the timeout is non-zero, opens a cursor
    and issues the vendor's command. *)
Lemma enter_runs (self : QueryCancellationContext.t) (w : World) :
  ∃ t, QueryCancellationContext.__enter__ self w
       = (Ok (QueryCancellationContext.set_start_time (clock w (ticks w)) self),
          set_trace (trace w ++ t) (set_ticks (S (ticks w)) w))
     ∧ (t = if QueryCancellationContext.enable_cancellation self
               && negb (QueryCancellationContext.timeout self =? 0)
            then Cursor ::
              (if String.eqb (vendor w) "postgresql"
               then [Execute ("SET statement_timeout = "
                       +:+ pretty (QueryCancellationContext.timeout self * 1000))]
               else if String.eqb (vendor w) "mysql"
               then [Execute ("SET SESSION max_execution_time = "
                       +:+ pretty (QueryCancellationContext.timeout self * 1000))]
               else [])
            else []).
Proof.
  run. destruct w as [c k v d r t q]; simpl.
  destruct (QueryCancellationContext.enable_cancellation self
            && negb (QueryCancellationContext.timeout self =? 0)); simpl.
  - destruct (String.eqb v "postgresql"); [|destruct (String.eqb v "mysql")];
      eexists; (split; [|reflexivity]); unfold set_trace; simpl;
      by rewrite <- ?app_assoc.
  - exists []. split; [|done]. unfold set_trace; simpl. by rewrite app_nil_r.
Qed.

(** [__exit__] first resets the timeout, then runs its two checks. *)
Lemma exit_unfold (self : QueryCancellationContext.t) (exc : option exn)
    (w : World) :
  QueryCancellationContext.__exit__ self exc w
  = (QueryCancellationContext.check_timeout self;;
     QueryCancellationContext.check_request self;;
     mret false) (set_trace (trace w ++ reset_events self w) w).
Proof.
  unfold QueryCancellationContext.__exit__, reset_events.
  destruct (QueryCancellationContext.enable_cancellation self).
  - destruct (reset_query_timeout_runs w) as (t & Hrun & ->).
    unfold mbind at 1. unfold M_bind at 1. by rewrite Hrun.
  - unfold mbind at 1. unfold M_bind at 1. unfold mret at 1, M_ret at 1.
    destruct w; unfold set_trace; simpl. by rewrite app_nil_r.
Qed.

(** The checks of [__exit__] for a context entered at a non-zero clock
    reading [t0]. *)
Lemma exit_checks (self : QueryCancellationContext.t) (t0 : float)
    (w : World) :
  QueryCancellationContext.start_time self = Some t0 →
  float_truthy t0 = true →
  (QueryCancellationContext.check_timeout self;;
   QueryCancellationContext.check_request self;;
   mret false) w
  = let w' := set_ticks (S (ticks w)) w in
    if QueryCancellationContext.exceeds (clock w (ticks w) - t0)%float
         (QueryCancellationContext.timeout self)
    then (Raise (QueryCancellationContext.timeout_error self), w')
    else if is_cancelled (request w)
    then (Raise QueryCancellationContext.request_aborted, w')
    else (Ok false, w').
Proof.
  intros Hstart Hnz. run. rewrite Hstart, Hnz. simpl.
  destruct (QueryCancellationContext.exceeds _ _); simpl; [done |].
  by destruct (is_cancelled (request w)).
Qed.

(** [__exit__] never swallows an exception. *)
Lemma exit_returns_false (self : QueryCancellationContext.t)
    (exc : option exn) (w : World) (b : bool) :
  (QueryCancellationContext.__exit__ self exc w).1 = Ok b → b = false.
Proof.
  rewrite exit_unfold. generalize (set_trace (trace w ++ reset_events self w) w).
  intros w0. run.
  destruct (QueryCancellationContext.start_time self) as [t0|]; simpl.
  - destruct (float_truthy t0); simpl; cycle 1.
    + destruct (is_cancelled (request w0)); simpl; congruence.
    + destruct (QueryCancellationContext.exceeds _ _); simpl; [congruence |].
      destruct (is_cancelled (request w0)); simpl; congruence.
  - destruct (is_cancelled (request w0)); simpl; congruence.
Qed.

(** [__exit__] in full: the reset, then the timeout, then the request. *)
Lemma exit_runs (self : QueryCancellationContext.t) (exc : option exn)
    (w : World) :
  QueryCancellationContext.__exit__ self exc w
  = let w0 := set_trace (trace w ++ reset_events self w) w in
    match QueryCancellationContext.started self with
    | Some t0 =>
        let w' := set_ticks (S (ticks w)) w0 in
        if QueryCancellationContext.exceeds (clock w (ticks w) - t0)%float
             (QueryCancellationContext.timeout self)
        then (Raise (QueryCancellationContext.timeout_error self), w')
        else if is_cancelled (request w)
        then (Raise QueryCancellationContext.request_aborted, w')
        else (Ok false, w')
    | None =>
        if is_cancelled (request w)
        then (Raise QueryCancellationContext.request_aborted, w0)
        else (Ok false, w0)
    end.
Proof.
  rewrite exit_unfold. cbv zeta.
  generalize (reset_events self w). intros t.
  unfold QueryCancellationContext.check_timeout,
    QueryCancellationContext.check_request.
  destruct (QueryCancellationContext.started self) as [t0|]; run.
  - destruct (QueryCancellationContext.exceeds _ _); simpl;
      [by destruct w |].
    destruct (is_cancelled (request w)); by destruct w.
  - by destruct (is_cancelled (request w)).
Qed.

End ContextManager.

(** C8.  [QueryCancellationMixin.check_cancellation] raises exactly when the
    request has a [_cancelled] attribute holding a truthy value; what it
    raises is [RequestAborted("Request was cancelled")]; otherwise it
    returns; and in both cases it leaves the state as it found it. *)
Theorem check_cancellation_raises_iff
    (self : QueryCancellationMixin.t) (request : Request) (w : World) :
  let cancelled := ∃ v, _cancelled request = Some v ∧ truthy v = true in
  let outcome := QueryCancellationMixin.check_cancellation self request w in
  ((∃ e, outcome.1 = Raise e) ↔ cancelled)
  ∧ (∀ e, outcome.1 = Raise e
          → e = mkExn RequestAborted "Request was cancelled")
  ∧ (¬ cancelled → outcome.1 = Ok ())
  ∧ outcome.2 = w.
Proof.
  run. unfold is_cancelled.
  destruct (_cancelled request) as [v|] eqn:Hattr; simpl.
  - destruct (truthy v) eqn:Hv; simpl.
    + repeat split; eauto.
      * intros e [= <-]. done.
      * intros Hn. destruct Hn. eauto.
    + repeat split; try done.
      * intros [e ?]. done.
      * intros (v' & [= <-] & ?). congruence.
  - repeat split; try done.
    + intros [e ?]. done.
    + intros (v' & ? & ?). done.
Qed.

(** C2.  With cancellation enabled and a non-zero timeout of [t] seconds,
    entering the context hands the connection exactly one command:
    [SET statement_timeout = <t*1000>] on postgresql,
    [SET SESSION max_execution_time = <t*1000>] on mysql, and nothing on
    any other vendor; leaving it hands over the matching reset to
    [DEFAULT] for those two vendors (and nothing for the others). *)
Theorem session_timeout_commands
    (self : QueryCancellationContext.t) (exc : option exn) (w : World) :
  QueryCancellationContext.enable_cancellation self = true →
  QueryCancellationContext.timeout self ≠ 0 →
  let ms := pretty (QueryCancellationContext.timeout self * 1000) in
  let on_enter := executed (trace (QueryCancellationContext.__enter__ self w).2) in
  let on_exit := executed (trace (QueryCancellationContext.__exit__ self exc w).2) in
  (vendor w = "postgresql" →
     on_enter = executed (trace w) ++ ["SET statement_timeout = " +:+ ms]
     ∧ on_exit = executed (trace w) ++ ["SET statement_timeout = DEFAULT"])
  ∧ (vendor w = "mysql" →
     on_enter = executed (trace w) ++ ["SET SESSION max_execution_time = " +:+ ms]
     ∧ on_exit = executed (trace w) ++ ["SET SESSION max_execution_time = DEFAULT"])
  ∧ (vendor w ≠ "postgresql" → vendor w ≠ "mysql" →
     on_enter = executed (trace w) ∧ on_exit = executed (trace w)).
Proof.
  intros Hon Hnz ms on_enter on_exit.
  assert (on_enter = executed (trace w) ++ executed
            (if String.eqb (vendor w) "postgresql"
             then [Execute ("SET statement_timeout = " +:+ ms)]
             else if String.eqb (vendor w) "mysql"
             then [Execute ("SET SESSION max_execution_time = " +:+ ms)]
             else [])) as Henter.
  { unfold on_enter. destruct (enter_runs self w) as (t & -> & ->).
    rewrite Hon. apply Z.eqb_neq in Hnz. rewrite Hnz. simpl.
    by rewrite executed_app. }
  assert (on_exit = executed (trace w) ++ executed
            (if String.eqb (vendor w) "postgresql"
             then [Execute "SET statement_timeout = DEFAULT"]
             else if String.eqb (vendor w) "mysql"
             then [Execute "SET SESSION max_execution_time = DEFAULT"]
             else [])) as Hexit.
  { unfold on_exit. rewrite exit_unfold.
    assert (∀ w0, executed (trace
              ((QueryCancellationContext.check_timeout self;;
                QueryCancellationContext.check_request self;;
                mret false) w0).2) = executed (trace w0)) as Hsame.
    { intros w0. run.
      destruct (QueryCancellationContext.start_time self) as [t0|]; simpl.
      - destruct (float_truthy t0); simpl; cycle 1.
        + by destruct (is_cancelled (request w0)).
        + destruct (QueryCancellationContext.exceeds _ _); simpl; [done |].
          by destruct (is_cancelled (request w0)).
      - by destruct (is_cancelled (request w0)). }
    rewrite Hsame. unfold reset_events. rewrite Hon. simpl.
    by rewrite executed_app. }
  rewrite Henter, Hexit. clear Henter Hexit on_enter on_exit.
  split; [|split].
  - intros ->. simpl. done.
  - intros ->. simpl. done.
  - intros Hpg Hmy. apply String.eqb_neq in Hpg, Hmy.
    rewrite Hpg, Hmy. simpl. by rewrite app_nil_r.
Qed.


(** ** views.py: the contact endpoint *)
Section ReadOnly.

Lemma read_only_ret {A : Type} (a : A) : read_only (mret a : M A).
Proof. by intros w. Qed.

Lemma read_only_bind {A B : Type} (m : M A) (f : A → M B) :
  read_only m → (∀ a, read_only (f a)) → read_only (m ≫= f).
Proof.
  intros Hm Hf w. unfold mbind, M_bind.
  specialize (Hm w). destruct (m w) as [[a|e] w1]; simpl in *; [|done].
  by rewrite Hf.
Qed.

Lemma read_only_gets {A : Type} (f : World → A) : read_only (gets f).
Proof. by intros w. Qed.

Lemma read_only_raise {A : Type} (e : exn) : read_only (raise e : M A).
Proof. by intros w. Qed.

Lemma read_only_lift {A : Type} (r : result A) : read_only (lift r).
Proof. by intros w. Qed.

Lemma read_only_emit (e : event) : read_only (emit e).
Proof. by intros [? ? ? ? ? ? ?]. Qed.

Lemma read_only_time : read_only time_time.
Proof. by intros [? ? ? ? ? ? ?]. Qed.

Lemma read_only_set_cancelled (v : pyval) : read_only (set_cancelled v).
Proof. by intros [? ? ? ? ? ? ?]. Qed.

Lemma read_only_reset_queries : read_only reset_queries.
Proof. by intros [? ? ? ? ? ? ?]. Qed.

Lemma read_only_if {A : Type} (b : bool) (m1 m2 : M A) :
  read_only m1 → read_only m2 → read_only (if b then m1 else m2).
Proof. by destruct b. Qed.

End ReadOnly.

Create HintDb read_only.
#[local] Hint Resolve read_only_ret read_only_gets read_only_raise
  read_only_lift read_only_emit read_only_time read_only_set_cancelled
  read_only_reset_queries : read_only.

Ltac read_only_step :=
  repeat first
    [ apply read_only_bind; [|intros ?]
    | apply read_only_if
    | solve [auto with read_only]
    | match goal with
      | |- read_only (match ?x with _ => _ end) => destruct x
      end ].

Section ReadOnlyViews.

Variable render_list : Database → Request → list AppUser → result Response.
Variable render_detail :
  Database → Request → string → list AppUser → result Response.

Lemma read_only_enter (self : QueryCancellationContext.t) :
  read_only (QueryCancellationContext.__enter__ self).
Proof.
  unfold QueryCancellationContext.__enter__,
    QueryCancellationContext._set_query_timeout.
  read_only_step.
Qed.

Lemma read_only_exit (self : QueryCancellationContext.t) (exc : option exn) :
  read_only (QueryCancellationContext.__exit__ self exc).
Proof.
  unfold QueryCancellationContext.__exit__,
    QueryCancellationContext._reset_query_timeout,
    QueryCancellationContext.check_timeout,
    QueryCancellationContext.check_request.
  read_only_step.
Qed.

Lemma read_only_with {A : Type} (mgr : QueryCancellationContext.t)
    (body : QueryCancellationContext.t → M A) :
  (∀ self, read_only (body self)) → read_only (with_ mgr body).
Proof.
  intros Hbody w. unfold with_.
  pose proof (read_only_enter mgr w) as H1.
  destruct (QueryCancellationContext.__enter__ mgr w) as [[self|e] w1];
    simpl in *; [|done].
  pose proof (Hbody self w1) as H2.
  destruct (body self w1) as [[a|e] w2]; simpl in *.
  - pose proof (read_only_exit self None w2) as H3.
    destruct (QueryCancellationContext.__exit__ self None w2) as [[b|e] w3];
      simpl in *; congruence.
  - pose proof (read_only_exit self (Some e) w2) as H3.
    destruct (QueryCancellationContext.__exit__ self (Some e) w2)
      as [[[|]|e'] w3]; simpl in *; congruence.
Qed.

Lemma read_only_get_queryset (self : QueryCancellationMixin.t) :
  read_only (get_queryset self).
Proof.
  unfold get_queryset, QueryCancellationMixin.check_cancellation.
  read_only_step.
Qed.

Lemma read_only_body (self : QueryCancellationMixin.t) (a : action) :
  read_only (handler_body render_list render_detail self a).
Proof.
  destruct a; simpl;
    unfold super_list, super_retrieve, stats_body, count;
    read_only_step; apply read_only_get_queryset.
Qed.

Lemma get_query_param_runs (self : QueryCancellationMixin.t)
    (request : Request) (param_name : string) :
  QueryCancellationMixin._get_query_param self request param_name None
  = query_string request !! param_name.
Proof.
  unfold QueryCancellationMixin._get_query_param, query_string.
  destruct (query_params request) as [qp|].
  - by destruct (qp !! param_name).
  - by destruct (GET request !! param_name).
Qed.

(** Every handler is the same prologue around its own block. *)
Lemma handle_unfold (self : QueryCancellationMixin.t) (a : action) (w : World) :
  handle render_list render_detail self a w
  = if truthy (py_of_param (query_string (request w) !! "_cancel"))
    then (Ok (Some cancelled_response),
          set_request
            (mkRequest (query_params (request w)) (GET (request w))
                       (Some (PyBool true))) w)
    else with_ (QueryCancellationMixin.get_cancellation_context self (request w))
           (λ _, handler_body render_list render_detail self a) w.
Proof.
  destruct a; simpl; unfold list_, retrieve, stats;
    unfold mbind at 1; unfold M_bind at 1; unfold gets at 1;
    rewrite get_query_param_runs;
    by destruct (truthy (py_of_param (query_string (request w) !! "_cancel"))).
Qed.

End ReadOnlyViews.

Section Handlers.

Variable render_list : Database → Request → list AppUser → result Response.
Variable render_detail :
  Database → Request → string → list AppUser → result Response.

Lemma read_only_handle (self : QueryCancellationMixin.t) (a : action) :
  read_only (handle render_list render_detail self a).
Proof.
  intros w. rewrite handle_unfold.
  destruct (truthy _); [by destruct w |].
  apply read_only_with. intros _. apply read_only_body.
Qed.

End Handlers.

(** C3.  The endpoint is read-only.  For [ContactViewSet], whose base is
    [ReadOnlyModelViewSet], the router binds [list], [stats] and [retrieve],
    each to [GET], and nothing else: the class has none of the writing
    handlers.  Whatever the method and the path of a request, whatever the
    framework renders and whatever the writing handlers of the framework
    would do, the three tables are the same after the request has been
    served as before; a handler runs for [GET] and [HEAD] only, and it is
    one of the three. *)
Theorem contact_endpoint_is_read_only
    (render_list : Database → Request → list AppUser → result Response)
    (render_detail : Database → Request → string → list AppUser → result Response)
    (inherited : string → option string → M (option Response))
    (self : QueryCancellationMixin.t) (m : Router.http_method)
    (path : list string) (w : World) :
  Router.get_urls Router.ContactViewSet_class
  = [(Router.list_route, [(Router.GET, "list")]);
     (Router.dynamic_list_route (Router.mkAction "stats" false [Router.GET]),
      [(Router.GET, "stats")]);
     (Router.detail_route, [(Router.GET, "retrieve")])]
  ∧ (∀ a, a ∈ write_actions →
          Router.hasattr Router.ContactViewSet_class a = false)
  ∧ (let served :=
       Router.serve render_list render_detail inherited
         Router.ContactViewSet_class self m path w in
     database served.2 = database w
     ∧ (∀ a r, served.1 = Ok (Router.Handled a r) →
               a ∈ ["list"; "retrieve"; "stats"]
               ∧ (m = Router.GET ∨ m = Router.HEAD))
     ∧ (m ≠ Router.GET → m ≠ Router.HEAD →
        served = (Ok Router.NotFound, w)
        ∨ served = (Ok Router.MethodNotAllowed, w)
        ∨ served = (Ok Router.Metadata, w)))
  ∧ ∀ a, database (handle render_list render_detail self a w).2 = database w.
Proof.
  split; [reflexivity |]. split; [|split].
  - intros a Ha. unfold write_actions in Ha.
    repeat (apply elem_of_cons in Ha as [-> | Ha]; [reflexivity |]).
    by apply elem_of_nil in Ha.
  - assert (∀ a (body : M (option Response)),
              read_only body →
              database ((response ← body; mret (Router.Handled a response)) w).2
              = database w) as Hhandled.
    { intros a body Hbody. unfold mbind, M_bind.
      specialize (Hbody w). by destruct (body w) as [[r|e] w1]. }
    assert (∀ a r (body : M (option Response)) a',
              ((response ← body; mret (Router.Handled a' response)) w).1
              = Ok (Router.Handled a r) → a = a') as Hname.
    { intros a r body a'. unfold mbind, M_bind.
      destruct (body w) as [[r'|e] w1]; simpl; [|done]. by intros [= -> _]. }
    pose proof (read_only_handle render_list render_detail self list_action)
      as Hlist.
    pose proof (read_only_handle render_list render_detail self stats_action)
      as Hstats.
    unfold Router.serve.
    change (Router.get_urls Router.ContactViewSet_class)
      with [(Router.list_route, [(Router.GET, "list")]);
            (Router.dynamic_list_route
               (Router.mkAction "stats" false [Router.GET]),
             [(Router.GET, "stats")]);
            (Router.detail_route, [(Router.GET, "retrieve")])].
    assert (∀ (a' : string) (body : M (option Response)),
              a' ∈ ["list"; "retrieve"; "stats"] →
              read_only body →
              ∀ m', m' = Router.GET ∨ m' = Router.HEAD →
              let served :=
                (response ← body; mret (Router.Handled a' response)) w in
              database served.2 = database w
              ∧ (∀ a r, served.1 = Ok (Router.Handled a r) →
                        a ∈ ["list"; "retrieve"; "stats"]
                        ∧ (m' = Router.GET ∨ m' = Router.HEAD))
              ∧ (m' ≠ Router.GET → m' ≠ Router.HEAD →
                 served = (Ok Router.NotFound, w)
                 ∨ served = (Ok Router.MethodNotAllowed, w)
                 ∨ served = (Ok Router.Metadata, w))) as Hruns.
    { intros a' body Ha' Hbody m' Hm' served. split; [|split].
      - by apply Hhandled.
      - intros a r Hserved. apply Hname in Hserved as ->. done.
      - intros Hget Hhead. by destruct Hm'. }
    assert (∀ (m' : Router.http_method) (refused : Router.served),
              refused = Router.NotFound ∨ refused = Router.MethodNotAllowed
              ∨ refused = Router.Metadata →
              let served := (mret refused : M Router.served) w in
              database served.2 = database w
              ∧ (∀ a r, served.1 = Ok (Router.Handled a r) →
                        a ∈ ["list"; "retrieve"; "stats"]
                        ∧ (m' = Router.GET ∨ m' = Router.HEAD))
              ∧ (m' ≠ Router.GET → m' ≠ Router.HEAD →
                 served = (Ok Router.NotFound, w)
                 ∨ served = (Ok Router.MethodNotAllowed, w)
                 ∨ served = (Ok Router.Metadata, w))) as Hrefused.
    { intros m' refused Hwhich served. split; [done |]. split.
      - intros a r [= ->]. by destruct Hwhich as [? | [? | ?]].
      - intros _ _. unfold served, mret, M_ret.
        destruct Hwhich as [-> | [-> | ->]]; auto. }
    assert ("list" ∈ ["list"; "retrieve"; "stats"]) as Hin_list
      by (repeat constructor).
    assert ("retrieve" ∈ ["list"; "retrieve"; "stats"]) as Hin_retrieve
      by (repeat constructor).
    assert ("stats" ∈ ["list"; "retrieve"; "stats"]) as Hin_stats
      by (repeat constructor).
    destruct path as [|s [|t path]]; simpl.
    + destruct m; simpl;
        first [ apply Hrefused; by auto
              | apply (Hruns "list" _ Hin_list Hlist); by auto ].
    + destruct (String.eqb s "stats"); simpl.
      * destruct m; simpl;
          first [ apply Hrefused; by auto
                | apply (Hruns "stats" _ Hin_stats Hstats); by auto ].
      * pose proof (read_only_handle render_list render_detail self
                      (retrieve_action s)) as Hretrieve.
        destruct m; simpl;
          first [ apply Hrefused; by auto
                | apply (Hruns "retrieve" _ Hin_retrieve Hretrieve);
                  by auto ].
    + apply Hrefused. by auto.
  - intros a. apply read_only_handle.
Qed.

(** With [ModelViewSet] for its base, the same class would take writes: a
    [DELETE] on a member reaches the [destroy] it then inherits. *)
Lemma model_viewset_takes_writes :
  Router.serve render_ids render_one wiping writable_class ContactViewSet
    Router.DELETE ["1"] plain_world
  = (Ok (Router.Handled "destroy" (Some (mkResponse 204 PyNone))),
     set_database (mkDatabase [] [home] [] upper) plain_world)
  ∧ Router.serve render_ids render_one wiping Router.ContactViewSet_class
      ContactViewSet Router.DELETE ["1"] plain_world
    = (Ok Router.MethodNotAllowed, plain_world).
Proof. split; reflexivity. Qed.

Section Querysets.



End Querysets.




Section Stats.

(** The three counts of the stats block, for a database [d]. *)
Lemma stats_body_runs (w : World) :
  let d := database w in
  stats_body w
  = (Ok (stats_response
           (Z.of_nat (length (objects d)))
           (Z.of_nat (length (qs_exclude address__isnull objects d)))
           (Z.of_nat (length (qs_exclude relationship__isnull objects d)))),
     set_trace (trace w ++ [Query "appuser"; Query "appuser, address set";
                            Query "appuser, relationship set"]) w).
Proof.
  destruct w as [c k v d r t q]. unfold stats_body, count. run.
  unfold set_trace. simpl. by rewrite <- !app_assoc.
Qed.

Lemma exclude_length (cond : Database → AppUser → bool) (d : Database) :
  (length (qs_exclude cond objects d) ≤ length (objects d))%nat.
Proof. unfold qs_exclude. apply List.filter_length_le. Qed.

Lemma stats_unfold (self : QueryCancellationMixin.t) (w : World) :
  stats self w
  = if truthy (py_of_param (query_string (request w) !! "_cancel"))
    then (Ok (Some cancelled_response),
          set_request
            (mkRequest (query_params (request w)) (GET (request w))
                       (Some (PyBool true))) w)
    else with_ (QueryCancellationMixin.get_cancellation_context self (request w))
           (λ _, stats_body) w.
Proof.
  unfold stats. unfold mbind at 1. unfold M_bind at 1. unfold gets at 1.
  rewrite get_query_param_runs.
  by destruct (truthy (py_of_param (query_string (request w) !! "_cancel"))).
Qed.

End Stats.

(** C10.  Whatever the database holds, a response of the stats endpoint
    other than the 499 one reports three counts: the number of [AppUser]
    rows, the number of those whose address is not null and the number of
    those that have a relationship.  All three are non-negative, and the
    last two are at most the first. *)
Theorem stats_counts_are_bounded
    (self : QueryCancellationMixin.t) (w : World) (resp : Response) :
  (stats self w).1 = Ok (Some resp) →
  Env.status_code resp ≠ 499 →
  ∃ total_count with_address with_relationship : Z,
    resp = mkResponse 200 (PyDict [
             ("total_contacts", PyInt total_count);
             ("contacts_with_address", PyInt with_address);
             ("contacts_with_relationship", PyInt with_relationship)])
    ∧ total_count = Z.of_nat (length (appuser_table (database w)))
    ∧ with_address
      = Z.of_nat (length (List.filter (λ u, bool_decide (address u ≠ None))
                            (appuser_table (database w))))
    ∧ with_relationship
      = Z.of_nat (length (List.filter
                            (λ u, bool_decide (relationship (database w) u ≠ None))
                            (appuser_table (database w))))
    ∧ 0 ≤ total_count
    ∧ 0 ≤ with_address ≤ total_count
    ∧ 0 ≤ with_relationship ≤ total_count.
Proof.
  intros Hrun Hstatus. rewrite stats_unfold in Hrun.
  destruct (truthy (py_of_param (query_string (request w) !! "_cancel"))).
  { simpl in Hrun. injection Hrun as <-. done. }
  unfold with_ in Hrun.
  destruct (enter_runs
              (QueryCancellationMixin.get_cancellation_context self (request w)) w)
    as (t & Henter & _).
  rewrite Henter in Hrun.
  set (w1 := set_trace (trace w ++ t) (set_ticks (S (ticks w)) w)) in *.
  assert (database w1 = database w) as Hdb by (by destruct w).
  rewrite stats_body_runs in Hrun. rewrite Hdb in Hrun.
  set (total_count := Z.of_nat (length (objects (database w)))) in *.
  set (with_address :=
         Z.of_nat (length (qs_exclude address__isnull objects (database w)))) in *.
  set (with_relationship :=
         Z.of_nat (length (qs_exclude relationship__isnull objects (database w)))) in *.
  cbv zeta in Hrun.
  destruct (QueryCancellationContext.__exit__ _ None _) as [[b|e] w3];
    simpl in Hrun; [|done].
  injection Hrun as <-.
  exists total_count, with_address, with_relationship.
  pose proof (exclude_length address__isnull (database w)).
  pose proof (exclude_length relationship__isnull (database w)).
  split; [done |]. split; [done |]. split; [|split]; [| |lia].
  - unfold with_address, qs_exclude, objects. do 2 f_equal.
    apply List.filter_ext. intros u. unfold address__isnull.
    by destruct (address u).
  - unfold with_relationship, qs_exclude, objects. do 2 f_equal.
    apply List.filter_ext. intros u. unfold relationship__isnull.
    by destruct (relationship (database w) u).
Qed.

Lemma stats_counts_are_bounded_witness :
  ∃ total_count with_address with_relationship : Z,
    (stats ContactViewSet plain_world).1
    = Ok (Some (mkResponse 200 (PyDict [
                  ("total_contacts", PyInt total_count);
                  ("contacts_with_address", PyInt with_address);
                  ("contacts_with_relationship", PyInt with_relationship)])))
    ∧ total_count = 3 ∧ with_address = 2 ∧ with_relationship = 1.
Proof.
  destruct (stats_counts_are_bounded ContactViewSet plain_world
              (stats_response 3 2 1))
    as (total_count & with_address & with_relationship & Hresp & Hrest).
  - vm_compute. reflexivity.
  - simpl. lia.
  - injection Hresp as <- <- <-.
    exists 3, 2, 1. repeat split; vm_compute; reflexivity.
Defined.

(** ** benchmarks.py: the pages the pagination benchmark fetches *)
Section PageSelection.

Lemma sample_from_submseteq (draws : nat → nat) (k i : nat) (pool : list Z) :
  sample_from draws i pool k ⊆+ pool.
Proof.
  revert i pool. induction k as [|k IH]; intros i pool; simpl.
  - apply submseteq_nil_l.
  - destruct (pool !! _) as [x|] eqn:Hx; [|apply submseteq_nil_l].
    trans (x :: delete (draws i `mod` length pool)%nat pool).
    + apply submseteq_skip, IH.
    + apply Permutation_submseteq. symmetry. by apply delete_Permutation.
Qed.

Lemma sample_from_length (draws : nat → nat) (k i : nat) (pool : list Z) :
  (k ≤ length pool)%nat → length (sample_from draws i pool k) = k.
Proof.
  revert i pool. induction k as [|k IH]; intros i pool Hk; simpl; [done |].
  assert (draws i `mod` length pool < length pool)%nat as Hj
    by (apply Nat.mod_upper_bound; lia).
  destruct (lookup_lt_is_Some_2 pool _ Hj) as [x Hx]. rewrite Hx. simpl.
  rewrite IH; [done |]. rewrite length_delete by eauto. lia.
Qed.

Lemma sorted_perm (l : list Z) : sorted l ≡ₚ l.
Proof. apply merge_sort_Permutation. Qed.

Lemma elem_of_sorted_set (l : list Z) (x : Z) : x ∈ sorted_set l ↔ x ∈ l.
Proof. unfold sorted_set. by rewrite sorted_perm, elem_of_remove_dups. Qed.

Lemma NoDup_sorted_set (l : list Z) : NoDup (sorted_set l).
Proof. unfold sorted_set. rewrite sorted_perm. apply NoDup_remove_dups. Qed.

Lemma sorted_set_length (l : list Z) : (length (sorted_set l) ≤ length l)%nat.
Proof.
  unfold sorted_set. rewrite sorted_perm. apply submseteq_length.
  apply NoDup_submseteq; [apply NoDup_remove_dups |].
  intros x. by rewrite elem_of_remove_dups.
Qed.

(** A list in non-decreasing order without repetition increases strictly. *)
Lemma strictly_sorted (l : list Z) :
  StronglySorted Z.le l → NoDup l → StronglySorted Z.lt l.
Proof.
  induction 1 as [|x l Hl IH Hx]; intros Hnd; [constructor |].
  apply list.NoDup_cons in Hnd as [Hin Hnd]. constructor; [by apply IH |].
  rewrite list.Forall_forall in Hx |- *. intros y Hy.
  specialize (Hx y Hy). assert (x ≠ y) by (intros ->; done). lia.
Qed.

Lemma sorted_set_increasing (l : list Z) : StronglySorted Z.lt (sorted_set l).
Proof.
  apply strictly_sorted; [|apply NoDup_sorted_set].
  unfold sorted_set, sorted. apply StronglySorted_merge_sort; apply _.
Qed.

(** Ceiling division. *)
Lemma total_pages_ceiling (total_count page_size : Z) :
  0 < page_size →
  let n := (total_count + page_size - 1) `div` page_size in
  (n - 1) * page_size < total_count ≤ n * page_size.
Proof.
  intros Hps n.
  pose proof (Z.div_mod (total_count + page_size - 1) page_size) as Hdm.
  pose proof (Z.mod_pos_bound (total_count + page_size - 1) page_size Hps).
  fold n in Hdm. nia.
Qed.

Lemma middle_page_bounds (total_pages : Z) :
  1 ≤ total_pages → 1 ≤ middle_page total_pages ≤ total_pages.
Proof.
  intros H. unfold middle_page.
  pose proof (Z.div_mod (total_pages + 1) 2).
  pose proof (Z.mod_pos_bound (total_pages + 1) 2). lia.
Qed.

End PageSelection.

Section PagesToTest.

Variable draws : nat → nat.

(** The shape of the selection: the fixed pages, then the picked ones. *)
Lemma pages_to_test_shape (total_pages num_random_pages : Z) :
  1 < total_pages → 0 ≤ num_random_pages →
  ∃ fixed picked : list Z,
    pages_to_test draws total_pages num_random_pages
    = Ok (sorted_set (fixed ++ picked))
    ∧ 1 ∈ fixed ∧ middle_page total_pages ∈ fixed ∧ total_pages ∈ fixed
    ∧ (length fixed ≤ 3)%nat
    ∧ Z.of_nat (length picked) ≤ num_random_pages
    ∧ ∀ p, p ∈ fixed ++ picked → 1 ≤ p ≤ total_pages.
Proof.
  intros Htp Hnum. unfold pages_to_test. cbv zeta.
  pose proof (middle_page_bounds total_pages ltac:(lia)) as Hmid.
  set (fixed := if negb (total_pages =? 1)
                   && negb (total_pages =? middle_page total_pages)
                then _ else _).
  assert (1 ∈ fixed ∧ middle_page total_pages ∈ fixed ∧ total_pages ∈ fixed
          ∧ (length fixed ≤ 3)%nat
          ∧ ∀ p, p ∈ fixed → 1 ≤ p ≤ total_pages) as (H1 & H2 & H3 & H4 & H5).
  { unfold fixed.
    destruct (middle_page total_pages =? 1) eqn:E1;
      destruct (total_pages =? 1) eqn:E2;
      destruct (total_pages =? middle_page total_pages) eqn:E3; simpl;
      rewrite ?Z.eqb_eq, ?Z.eqb_neq in E1, E2, E3;
      repeat split; try lia;
      try (intros p Hp; set_unfold in Hp; lia);
      set_unfold; lia. }
  clearbody fixed.
  set (available_pages := List.filter _ _).
  assert (∀ p, p ∈ available_pages → 1 ≤ p ≤ total_pages) as Havail.
  { intros q Hq. unfold available_pages in Hq.
    apply list_elem_of_In, List.filter_In in Hq as [Hq _].
    apply list_elem_of_In, elem_of_seqZ in Hq. lia. }
  clearbody available_pages.
  destruct (0 <? length available_pages)%nat eqn:Hlen.
  - apply Nat.ltb_lt in Hlen. unfold random_sample.
    set (num_random := Z.min num_random_pages
                         (Z.of_nat (length available_pages))).
    assert (0 ≤ num_random ≤ Z.of_nat (length available_pages)) as Hk
      by (unfold num_random; lia).
    replace (num_random <? 0) with false by (symmetry; apply Z.ltb_ge; lia).
    replace (Z.of_nat (length available_pages) <? num_random) with false
      by (symmetry; apply Z.ltb_ge; lia).
    simpl.
    set (picked := sample_from draws 0 available_pages (Z.to_nat num_random)).
    assert (picked ⊆+ available_pages) as Hsub
      by apply sample_from_submseteq.
    assert (length picked = Z.to_nat num_random) as Hpicked
      by (apply sample_from_length; lia).
    exists fixed, (sorted picked).
    do 5 (split; [done |]). split.
    + rewrite (Permutation_length (sorted_perm picked)), Hpicked.
      unfold num_random. lia.
    + intros p [Hp | Hp]%elem_of_app; [by apply H5 |].
      rewrite sorted_perm in Hp. apply Havail.
      by eapply elem_of_submseteq.
  - exists fixed, []. rewrite app_nil_r.
    do 5 (split; [done |]). split; [simpl; lia | done].
Qed.

End PagesToTest.

(** C6, amended.  For a positive [total_count], a positive [page_size] and
    a number of random pages that is not negative, the number of pages is
    [(total_count + page_size - 1) // page_size], the ceiling of
    [total_count / page_size].  When it exceeds 1 the benchmark obtains a
    list of pages to test that increases strictly (so it is sorted and free
    of duplicates), contains page 1, the middle page
    [(total_pages + 1) // 2] and the last page, has at most
    [3 + num_random_pages] entries, and holds only page numbers between 1
    and [total_pages]. *)
Theorem pagination_pages_selected
    (draws : nat → nat) (total_count page_size num_random_pages : Z) :
  0 < total_count → 0 < page_size → 0 ≤ num_random_pages →
  ∃ n : Z,
    total_pages total_count page_size = Ok n
    ∧ n = (total_count + page_size - 1) `div` page_size
    ∧ (n - 1) * page_size < total_count ≤ n * page_size
    ∧ (1 < n →
       ∃ pages : list Z,
         pages_to_test draws n num_random_pages = Ok pages
         ∧ page_plan draws page_size num_random_pages total_count
           = Ok (Some (n, pages))
         ∧ StronglySorted Z.lt pages
         ∧ NoDup pages
         ∧ 1 ∈ pages
         ∧ (n + 1) `div` 2 ∈ pages
         ∧ n ∈ pages
         ∧ Z.of_nat (length pages) ≤ 3 + num_random_pages
         ∧ ∀ p, p ∈ pages → 1 ≤ p ≤ n).
Proof.
  intros Hcount Hsize Hnum.
  exists ((total_count + page_size - 1) `div` page_size).
  assert (total_pages total_count page_size
          = Ok ((total_count + page_size - 1) `div` page_size)) as Htotal.
  { unfold total_pages.
    by replace (page_size =? 0) with false by (symmetry; apply Z.eqb_neq; lia). }
  split; [done |]. split; [done |].
  split; [by apply total_pages_ceiling |].
  set (n := (total_count + page_size - 1) `div` page_size) in *.
  intros Hn.
  destruct (pages_to_test_shape draws n num_random_pages Hn Hnum)
    as (fixed & picked & Hrun & H1 & Hmid & Hlast & Hfixed & Hpicked & Hrange).
  exists (sorted_set (fixed ++ picked)). split; [done |]. split.
  { unfold page_plan. rewrite Htotal, Hrun.
    replace (total_count =? 0) with false by (symmetry; apply Z.eqb_neq; lia).
    by replace (n <=? 1) with false by (symmetry; apply Z.leb_gt; lia). }
  split; [apply sorted_set_increasing |].
  split; [apply NoDup_sorted_set |].
  split; [apply elem_of_sorted_set, elem_of_app; by left |].
  split; [apply elem_of_sorted_set, elem_of_app; by left |].
  split; [apply elem_of_sorted_set, elem_of_app; by left |].
  split.
  - pose proof (sorted_set_length (fixed ++ picked)) as Hlen.
    rewrite length_app in Hlen. lia.
  - intros p Hp. by apply Hrange, elem_of_sorted_set.
Qed.

(** The claim C6 as it was first put, for every [num_random_pages], fails on
    a negative one: with 25 items in pages of 10 the three pages are all
    tested, more than [3 + num_random_pages]. *)
Lemma pagination_pages_negative_count :
  page_plan (λ _, 0%nat) 10 (-1) 25 = Ok (Some (3, [1; 2; 3]))
  ∧ ¬ (Z.of_nat (length [1; 2; 3]) ≤ 3 + -1).
Proof. split; [reflexivity | simpl; lia]. Qed.

Lemma pagination_pages_selected_witness :
  ∃ pages : list Z,
    page_plan (λ i, (i * 7 + 3)%nat) 10 4 1234 = Ok (Some (124, pages))
    ∧ 1 ∈ pages ∧ 62 ∈ pages ∧ 124 ∈ pages
    ∧ Z.of_nat (length pages) ≤ 7.
Proof.
  destruct (pagination_pages_selected (λ i, (i * 7 + 3)%nat) 1234 10 4)
    as (n & Hn & -> & _ & Hpages); [lia | lia | lia |].
  destruct Hpages as (pages & _ & Hplan & _ & _ & H1 & Hmid & Hlast & Hlen & _).
  { vm_compute. reflexivity. }
  exists pages. repeat split; assumption.
Defined.

(** ** benchmarks.py: [measure_time] *)
Section MeasureTime.

(** The state the benchmarked function starts from. *)
Lemma measure_time_unfold (func : M (option pyobj)) (w : World) :
  let start_time := clock w (ticks w) in
  let w0 := set_ticks (S (ticks w)) (set_queries [] w) in
  measure_time func w
  = finally
      (λ w',
         match func w' with
         | (Raise e, w1) => handle_exception start_time PyNone PyNone e w1
         | (Ok result_obj, w1) =>
             (end_time ← time_time;
              let execution_time := ((end_time - start_time) * 1000)%float in
              query_count ← len_queries;
              let status_code :=
                match result_obj ≫= attr_status_code with
                | Some v => v
                | None => PyNone
                end in
              match result_obj ≫= attr_data with
              | Some results_data =>
                  match count_results results_data with
                  | Ok result_count =>
                      mret (mkMeasurement execution_time query_count
                              status_code result_count PyNone)
                  | Raise e =>
                      handle_exception start_time status_code PyNone e
                  end
              | None =>
                  mret (mkMeasurement execution_time query_count status_code
                          PyNone PyNone)
              end) w1
         end)
      reset_queries w0.
Proof. by destruct w. Qed.

(** An exception derived from [Exception] is turned into a record. *)
Lemma handle_exception_records (start_time : float) (sc rc : pyval) (e : exn)
    (w : World) :
  is_Exception (exn_cls e) = true →
  ∃ m, (handle_exception start_time sc rc e w).1 = Ok m
       ∧ Benchmarks.status_code m = sc
       ∧ result_count m = rc
       ∧ error m = PyStr
           (if is_OperationalError (exn_cls e)
               && (contains "timeout" (lower (exn_msg e))
                   || contains "QueryCanceled" (exn_msg e))
            then "TIMEOUT" else exn_msg e).
Proof.
  intros Hexc. unfold handle_exception.
  destruct (is_OperationalError (exn_cls e)); simpl.
  - run. eexists. split; [reflexivity |]. simpl.
    by destruct (contains "timeout" (lower (exn_msg e))
                 || contains "QueryCanceled" (exn_msg e)).
  - rewrite Hexc. run. eexists. by split; [reflexivity |].
Qed.

Lemma finally_reset_outcome {A : Type} (body : M A) (w : World) :
  (finally body reset_queries w).1 = (body w).1.
Proof. unfold finally. by destruct (body w) as [r w1]. Qed.

End MeasureTime.

(** C5, amended.  [measure_time] does not propagate an exception derived
    from [Exception] that the benchmarked function raises: it returns a
    record whose [error] is the exception's message, or the literal
    [TIMEOUT] for an [OperationalError] whose message contains [timeout]
    in any letter case or the exact text [QueryCanceled].  An exception
    that is not derived from [Exception] propagates.  When the function
    returns and the result count can be taken from its payload, [error] is
    [None] and the record carries the status code and the result count of
    the response. *)
Theorem measure_time_records_outcome (func : M (option pyobj)) (w : World) :
  let w0 := set_ticks (S (ticks w)) (set_queries [] w) in
  let outcome := (measure_time func w).1 in
  (∀ e, (func w0).1 = Raise e → is_Exception (exn_cls e) = true →
     ∃ m, outcome = Ok m
       ∧ (is_OperationalError (exn_cls e) = true
          ∧ (substring_of "timeout" (lower (exn_msg e))
             ∨ substring_of "QueryCanceled" (exn_msg e))
          → error m = PyStr "TIMEOUT")
       ∧ (¬ (is_OperationalError (exn_cls e) = true
             ∧ (substring_of "timeout" (lower (exn_msg e))
                ∨ substring_of "QueryCanceled" (exn_msg e)))
          → error m = PyStr (exn_msg e)))
  ∧ (∀ e, (func w0).1 = Raise e → is_Exception (exn_cls e) = false →
     outcome = Raise e)
  ∧ (∀ result_obj count, (func w0).1 = Ok result_obj →
     match result_obj ≫= attr_data with
     | Some results_data => count_results results_data
     | None => Ok PyNone
     end = Ok count →
     ∃ m, outcome = Ok m
       ∧ error m = PyNone
       ∧ Benchmarks.status_code m
         = match result_obj ≫= attr_status_code with
           | Some v => v
           | None => PyNone
           end
       ∧ result_count m = count)
  ∧ (∀ (r : Response) (l : list pyval),
     (func w0).1 = Ok (Some (obj_of_response r)) →
     data r = PyList l
     ∨ (∃ d, data r = PyDict d ∧ dict_get "results" d = Some (PyList l)) →
     ∃ m, outcome = Ok m
       ∧ error m = PyNone
       ∧ Benchmarks.status_code m = PyInt (Env.status_code r)
       ∧ result_count m = PyInt (Z.of_nat (length l))).
Proof.
  intros w0 outcome.
  assert (∀ result_obj count, (func w0).1 = Ok result_obj →
     match result_obj ≫= attr_data with
     | Some results_data => count_results results_data
     | None => Ok PyNone
     end = Ok count →
     ∃ m, outcome = Ok m
       ∧ error m = PyNone
       ∧ Benchmarks.status_code m
         = match result_obj ≫= attr_status_code with
           | Some v => v
           | None => PyNone
           end
       ∧ result_count m = count) as Hreturns.
  { intros result_obj count Hfunc Hcount. unfold outcome.
    rewrite measure_time_unfold. cbv zeta. fold w0.
    rewrite finally_reset_outcome.
    destruct (func w0) as [r w1]. simpl in Hfunc. subst r.
    destruct result_obj as [[sc [results_data|]]|]; run.
    - rewrite Hcount. simpl. eexists. by split; [reflexivity |].
    - injection Hcount as <-. eexists. by split; [reflexivity |].
    - injection Hcount as <-. eexists. by split; [reflexivity |]. }
  split; [|split; [|split; [exact Hreturns |]]].
  - intros e Hfunc Hexc. unfold outcome.
    rewrite measure_time_unfold. cbv zeta. fold w0.
    rewrite finally_reset_outcome.
    destruct (func w0) as [r w1]. simpl in Hfunc. subst r.
    destruct (handle_exception_records (clock w (ticks w)) PyNone PyNone e w1 Hexc)
      as (m & Hm & _ & _ & Herr).
    exists m. split; [done |]. rewrite Herr.
    destruct (is_OperationalError (exn_cls e)); simpl.
    + destruct (contains "timeout" (lower (exn_msg e))) eqn:H1;
        destruct (contains "QueryCanceled" (exn_msg e)) eqn:H2; simpl;
        (split;
         [ intros [_ [H | H]]; apply contains_spec in H;
           first [done | congruence]
         | intros Hn;
           first [ done
                 | exfalso; apply Hn; split; [done |];
                   first [ left; by apply contains_spec
                         | right; by apply contains_spec ] ] ]).
    + split; [|done]. by intros [? _].
  - intros e Hfunc Hexc. unfold outcome.
    rewrite measure_time_unfold. cbv zeta. fold w0.
    rewrite finally_reset_outcome.
    destruct (func w0) as [r w1]. simpl in Hfunc. subst r.
    unfold handle_exception.
    assert (is_OperationalError (exn_cls e) = false) as ->
      by (by destruct (exn_cls e)).
    by rewrite Hexc.
  - intros r l Hfunc Hdata.
    destruct (Hreturns (Some (obj_of_response r)) (PyInt (Z.of_nat (length l)))
                Hfunc) as (m & Hm & Herr & Hsc & Hrc).
    + simpl. destruct Hdata as [-> | (d & -> & Hres)]; simpl; [done |].
      by rewrite Hres.
    + exists m. by rewrite Hsc, Hrc.
Qed.

(** The claim C5 as it was first put fails twice: an exception that is not
    derived from [Exception] leaves [measure_time], and a function that
    returns a payload whose [results] has no length gets an [error]. *)
Lemma measure_time_not_total :
  (measure_time interrupted plain_world).1 = Raise (mkExn KeyboardInterrupt EmptyString)
  ∧ (no_results (set_ticks 1 (set_queries [] plain_world))).1
    = Ok (Some (obj_of_response (mkResponse 200 (PyDict [("results", PyNone)]))))
  ∧ ∃ m, (measure_time no_results plain_world).1 = Ok m
         ∧ error m = PyStr "object of type 'NoneType' has no len()".
Proof.
  split; [reflexivity |]. split; [reflexivity |].
  eexists. split; reflexivity.
Qed.

Lemma measure_time_records_outcome_witness :
  (∃ m, (measure_time timed_out plain_world).1 = Ok m
        ∧ error m = PyStr "TIMEOUT")
  ∧ (∃ m, (measure_time page_of_two plain_world).1 = Ok m
          ∧ error m = PyNone
          ∧ Benchmarks.status_code m = PyInt 200
          ∧ result_count m = PyInt 2).
Proof.
  split.
  - destruct (measure_time_records_outcome timed_out plain_world)
      as (Hraised & _).
    destruct (Hraised
                (mkExn OperationalError
                   "canceling statement due to statement Timeout")
                eq_refl eq_refl) as (m & Hm & Htimeout & _).
    exists m. split; [exact Hm |]. apply Htimeout.
    split; [reflexivity |]. left.
    exists "canceling statement due to statement ", EmptyString. reflexivity.
  - destruct (measure_time_records_outcome page_of_two plain_world)
      as (_ & _ & _ & Hresponse).
    apply (Hresponse
             (mkResponse 200 (PyDict [("count", PyInt 2);
                                      ("results", PyList [PyInt 1; PyInt 2])]))
             [PyInt 1; PyInt 2] eq_refl).
    right. eexists. split; reflexivity.
Defined.

Lemma check_cancellation_raises_iff_witness :
  ∃ e, (QueryCancellationMixin.check_cancellation ContactViewSet
          (request cancelled_world) plain_world).1 = Raise e.
Proof.
  apply (check_cancellation_raises_iff ContactViewSet
           (request cancelled_world) plain_world).
  exists (PyBool true). split; reflexivity.
Defined.

Lemma session_timeout_commands_witness :
  executed (trace (QueryCancellationContext.__enter__
                     (QueryCancellationMixin.get_cancellation_context
                        ContactViewSet (request plain_world)) plain_world).2)
  = ["SET statement_timeout = 30000"]
  ∧ executed (trace (QueryCancellationContext.__exit__
                       (QueryCancellationMixin.get_cancellation_context
                          ContactViewSet (request plain_world)) None plain_world).2)
    = ["SET statement_timeout = DEFAULT"].
Proof.
  destruct (session_timeout_commands
              (QueryCancellationMixin.get_cancellation_context ContactViewSet
                 (request plain_world))
              None plain_world eq_refl) as (Hpostgresql & _ & _).
  - simpl. lia.
  - exact (Hpostgresql eq_refl).
Defined.

(** The claim C1 as it was first put fails in two ways.  Between the
    readings 0.1 and 30.1 strictly more than the 30 seconds of the timeout
    pass, but their float difference is 30.0 and [__exit__] raises nothing.
    And a context entered at the reading 0.0 is never checked: 100 seconds
    later [__exit__] raises nothing either. *)
Lemma timeout_check_misses_elapsed_time :
  (∃ q0 q1 : Q,
     real_of_float (clock boundary_world 0) = Some q0
     ∧ real_of_float (clock boundary_world 1) = Some q1
     ∧ (30 < q1 - q0)%Q)
  ∧ with_ (QueryCancellationMixin.get_cancellation_context ContactViewSet
             (request boundary_world))
      (λ _, mret ()) boundary_world
    = (Ok (Some ()),
       set_trace [Cursor; Execute "SET statement_timeout = 30000";
                  Cursor; Execute "SET statement_timeout = DEFAULT"]
         (set_ticks 2 boundary_world))
  ∧ (∃ q0 q1 : Q,
       real_of_float (clock epoch_world 0) = Some q0
       ∧ real_of_float (clock epoch_world 1) = Some q1
       ∧ (30 < q1 - q0)%Q)
  ∧ with_ (QueryCancellationMixin.get_cancellation_context ContactViewSet
             (request epoch_world))
      (λ _, mret ()) epoch_world
    = (Ok (Some ()),
       set_trace [Cursor; Execute "SET statement_timeout = 30000";
                  Cursor; Execute "SET statement_timeout = DEFAULT"]
         (set_ticks 1 epoch_world)).
Proof.
  split; [|split; [|split]].
  - eexists _, _. split; [vm_compute; reflexivity |].
    split; [vm_compute; reflexivity |]. vm_compute. reflexivity.
  - reflexivity.
  - eexists _, _. split; [vm_compute; reflexivity |].
    split; [vm_compute; reflexivity |]. vm_compute. reflexivity.
  - reflexivity.
Qed.


(** * Further properties *)

Import AsyncMixins Observations.

(** ** mixins.py: how the context manager behaves as a whole *)
Section ContextOutcome.

(** [with mgr: body] in full. *)
Lemma with_runs {A : Type} (mgr : QueryCancellationContext.t)
    (body : QueryCancellationContext.t → M A) (w : World) :
  let self := QueryCancellationContext.set_start_time (clock w (ticks w)) mgr in
  let w1 := set_trace (trace w ++ enter_events mgr w)
              (set_ticks (S (ticks w)) w) in
  with_ mgr body w
  = match body self w1 with
    | (r, w2) =>
        let exc := match r with Ok _ => None | Raise e => Some e end in
        match QueryCancellationContext.__exit__ self exc w2 with
        | (Raise e, w3) => (Raise e, w3)
        | (Ok _, w3) =>
            (match r with Ok a => Ok (Some a) | Raise e => Raise e end, w3)
        end
    end.
Proof.
  intros self w1. unfold with_.
  destruct (enter_runs mgr w) as (t & -> & ->).
  subst self w1. unfold enter_events.
  match goal with |- context [body ?s ?w'] => destruct (body s w') as [[a|e] w2] end;
    simpl.
  - by destruct (QueryCancellationContext.__exit__ _ None w2) as [[b|e] w3].
  - match goal with
    | |- context [QueryCancellationContext.__exit__ ?s (Some e) w2] =>
        pose proof (exit_returns_false s (Some e) w2) as Hfalse;
        destruct (QueryCancellationContext.__exit__ s (Some e) w2)
          as [[b|e'] w3]; [|done]
    end.
    by rewrite (Hfalse b eq_refl).
Qed.

End ContextOutcome.

(** X1.  [__exit__] checks in a fixed order.  It raises [RequestAborted]
    exactly when the time limit is not exceeded and the request is marked
    cancelled, returns [False] exactly when neither holds, and never returns
    [True]; when the limit is exceeded it raises [TimeoutError] even if the
    request is cancelled as well.  The exception the block raised plays no
    part. *)
Theorem exit_checks_timeout_first
    (self : QueryCancellationContext.t) (exc : option exn) (w : World) :
  let outcome := (QueryCancellationContext.__exit__ self exc w).1 in
  let overdue := late self (clock w (ticks w)) in
  (outcome = Raise (mkExn RequestAborted "Request was cancelled")
     ↔ overdue = false ∧ is_cancelled (request w) = true)
  ∧ (outcome = Ok false
     ↔ overdue = false ∧ is_cancelled (request w) = false)
  ∧ outcome ≠ Ok true
  ∧ (overdue = true →
     outcome = Raise (mkExn TimeoutError
       ("Query exceeded timeout of "
          +:+ pretty (QueryCancellationContext.timeout self) +:+ " seconds")))
  ∧ outcome = (QueryCancellationContext.__exit__ self None w).1.
Proof.
  intros outcome overdue. unfold outcome, overdue, late.
  rewrite !exit_runs. cbv zeta.
  destruct (QueryCancellationContext.started self) as [t0|].
  - destruct (QueryCancellationContext.exceeds _ _);
      [|destruct (is_cancelled (request w))]; simpl;
      repeat split; try done; try (by intros [? ?]).
  - destruct (is_cancelled (request w)); simpl;
      repeat split; try done; by intros [? ?].
Qed.

(** X2.  The context's own [check_cancellation] looks at the request first:
    on a request marked cancelled it raises [RequestAborted] without reading
    the clock or touching the state, also when the time limit is exceeded
    (where [__exit__] raises [TimeoutError]).  Otherwise it raises
    [TimeoutError] when the limit is exceeded and returns when not.  It
    never talks to the database. *)
Theorem context_check_cancellation_request_first
    (self : QueryCancellationContext.t) (exc : option exn) (w : World) :
  let check := QueryCancellationContext.check_cancellation self w in
  let overdue := late self (clock w (ticks w)) in
  (is_cancelled (request w) = true →
     check = (Raise (mkExn RequestAborted "Request was cancelled"), w))
  ∧ (is_cancelled (request w) = true → overdue = true →
     ∃ e, (QueryCancellationContext.__exit__ self exc w).1 = Raise e
          ∧ exn_cls e = TimeoutError)
  ∧ (is_cancelled (request w) = false →
     check.1 = if overdue
               then Raise (QueryCancellationContext.timeout_error self)
               else Ok ())
  ∧ trace check.2 = trace w
  ∧ database check.2 = database w.
Proof.
  intros check overdue. unfold check, overdue, late.
  split; [|split; [|split]].
  - intros Hc. unfold QueryCancellationContext.check_cancellation. run.
    by rewrite Hc.
  - intros Hc Hlate. rewrite exit_runs. cbv zeta.
    destruct (QueryCancellationContext.started self) as [t0|]; [|done].
    rewrite Hlate. simpl. eauto.
  - intros Hc. unfold QueryCancellationContext.check_cancellation. run.
    rewrite Hc. simpl.
    destruct (QueryCancellationContext.start_time self) as [t0|]; simpl; [|done].
    destruct (float_truthy t0); simpl; [| done].
    by destruct (QueryCancellationContext.exceeds _ _).
  - unfold QueryCancellationContext.check_cancellation. run.
    destruct (is_cancelled (request w)); simpl; [done |].
    destruct (QueryCancellationContext.start_time self) as [t0|]; simpl; [|done].
    destruct (float_truthy t0); simpl; [| done].
    destruct (QueryCancellationContext.exceeds _ _); by destruct w.
Qed.

(** X3.  The [with] statement over this context manager never swallows an
    exception: it never completes without a value, and when the block
    raises, the statement raises too, either the block's exception or the
    [TimeoutError] or [RequestAborted] that [__exit__] puts in its place. *)
Theorem with_never_swallows {A : Type}
    (mgr : QueryCancellationContext.t)
    (body : QueryCancellationContext.t → M A) (w : World) :
  (with_ mgr body w).1 ≠ Ok None
  ∧ ∀ self w1 e,
      QueryCancellationContext.__enter__ mgr w = (Ok self, w1) →
      (body self w1).1 = Raise e →
      ∃ e', (with_ mgr body w).1 = Raise e'
            ∧ (e' = e ∨ exn_cls e' = TimeoutError
               ∨ exn_cls e' = RequestAborted).
Proof.
  split.
  - rewrite with_runs. cbv zeta.
    destruct (body _ _) as [[a|e] w2];
      destruct (QueryCancellationContext.__exit__ _ _ w2) as [[b|e'] w3];
      done.
  - intros self w1 e Henter Hbody. rewrite with_runs. cbv zeta.
    destruct (enter_runs mgr w) as (t & Hrun & ->).
    rewrite Hrun in Henter. injection Henter as <- <-.
    unfold enter_events.
    destruct (body _ _) as [r w2]. simpl in Hbody. subst r.
    rewrite exit_runs. cbv zeta.
    destruct (QueryCancellationContext.started _) as [t0|].
    + destruct (QueryCancellationContext.exceeds _ _); simpl; [eauto |].
      destruct (is_cancelled (request w2)); simpl; eauto.
    + destruct (is_cancelled (request w2)); simpl; eauto.
Qed.

(** X4.  A timeout of 0 does not switch the time limit off.  [__enter__]
    then sends nothing to the database, but for a context entered at a
    clock reading other than [0.0], [__exit__] raises the [TimeoutError]
    exactly when the float difference between its own reading and that one
    is greater than 0, and still sends its reset when cancellation is
    enabled. *)
Theorem zero_timeout_always_expires
    (self : QueryCancellationContext.t) (exc : option exn) (w : World)
    (t0 : float) :
  QueryCancellationContext.timeout self = 0 →
  QueryCancellationContext.start_time self = Some t0 →
  float_truthy t0 = true →
  trace (QueryCancellationContext.__enter__ self w).2 = trace w
  ∧ ((QueryCancellationContext.__exit__ self exc w).1
       = Raise (mkExn TimeoutError "Query exceeded timeout of 0 seconds")
     ↔ float_gt_int (clock w (ticks w) - t0)%float 0 = true)
  ∧ trace (QueryCancellationContext.__exit__ self exc w).2
    = trace w ++ reset_events self w.
Proof.
  intros Hzero Hstart Hnzb.
  split; [|split].
  - destruct (enter_runs self w) as (t & -> & ->).
    rewrite Hzero, andb_false_r. simpl. by rewrite app_nil_r.
  - rewrite exit_runs. cbv zeta.
    unfold QueryCancellationContext.started,
      QueryCancellationContext.timeout_error,
      QueryCancellationContext.exceeds.
    rewrite Hstart, Hnzb, Hzero.
    destruct (float_gt_int _ 0); simpl.
    + done.
    + split; [|done]. by destruct (is_cancelled (request w)).
  - rewrite exit_runs. cbv zeta.
    destruct (QueryCancellationContext.started self) as [t1|].
    + destruct (QueryCancellationContext.exceeds _ _); simpl; [done |].
      by destruct (is_cancelled (request w)).
    + by destruct (is_cancelled (request w)).
Qed.

(** X5.  With [enable_cancellation] off the context manager leaves the
    database connection alone: neither [__enter__] nor [__exit__] opens a
    cursor or sends a command, whatever the vendor; the time limit is
    checked all the same. *)
Theorem disabled_cancellation_sends_nothing
    (self : QueryCancellationContext.t) (exc : option exn) (w : World) :
  QueryCancellationContext.enable_cancellation self = false →
  trace (QueryCancellationContext.__enter__ self w).2 = trace w
  ∧ trace (QueryCancellationContext.__exit__ self exc w).2 = trace w
  ∧ (late self (clock w (ticks w)) = true →
     (QueryCancellationContext.__exit__ self exc w).1
     = Raise (QueryCancellationContext.timeout_error self)).
Proof.
  intros Hoff. split; [|split].
  - destruct (enter_runs self w) as (t & -> & ->).
    rewrite Hoff. simpl. by rewrite app_nil_r.
  - rewrite exit_runs. cbv zeta. unfold reset_events. rewrite Hoff.
    destruct (QueryCancellationContext.started self) as [t1|].
    + destruct (QueryCancellationContext.exceeds _ _); simpl;
        [by rewrite app_nil_r |].
      destruct (is_cancelled (request w)); simpl; by rewrite app_nil_r.
    + destruct (is_cancelled (request w)); simpl; by rewrite app_nil_r.
  - unfold late. rewrite exit_runs. cbv zeta.
    destruct (QueryCancellationContext.started self) as [t1|]; [|done].
    by intros ->.
Qed.


(** ** views.py: the handlers as a whole *)
Section HandlerOutcome.

Variable render_list : Database → Request → list AppUser → result Response.
Variable render_detail :
  Database → Request → string → list AppUser → result Response.

(** [get_queryset] never changes the state. *)
Lemma get_queryset_outcome (self : QueryCancellationMixin.t) (w : World) :
  get_queryset self w
  = (if is_cancelled (request w)
     then Raise (mkExn RequestAborted "Request was cancelled")
     else match query_params (request w) with
          | None =>
              Raise (mkExn AttributeError
                       "'WSGIRequest' object has no attribute 'query_params'")
          | Some qp =>
              Ok (match qp !! "name" with
                  | Some name_filter =>
                      if truthy (PyStr name_filter)
                      then qs_filter (name_matches name_filter) objects
                      else objects
                  | None => objects
                  end)
          end, w).
Proof.
  unfold get_queryset. run.
  destruct (is_cancelled (request w)); simpl; [done |].
  destruct (query_params (request w)) as [qp|]; [|done].
  destruct (qp !! "name") as [name|]; [|done].
  by destruct (negb (name =? EmptyString)%string).
Qed.

(** The block of a handler only reads: it adds queryset evaluations to the
    trace and nothing else. *)
Lemma handler_body_runs (self : QueryCancellationMixin.t) (a : action)
    (w : World) :
  ∃ r t,
    handler_body render_list render_detail self a w
    = (r, set_trace (trace w ++ t) w)
    ∧ executed t = []
    ∧ (is_cancelled (request w) = true →
       match a with
       | stats_action => evaluations t = 3%nat
       | _ => r = Raise (mkExn RequestAborted "Request was cancelled")
              ∧ t = []
       end).
Proof.
  destruct a; simpl.
  - unfold super_list. unfold mbind at 1. unfold M_bind at 1.
    rewrite get_queryset_outcome.
    destruct (is_cancelled (request w)).
    { exists (Raise (mkExn RequestAborted "Request was cancelled")), [].
      destruct w; unfold set_trace; simpl. by rewrite app_nil_r. }
    destruct (query_params (request w)) as [qp|].
    + run. eexists _, [Query "contacts"]. by destruct w.
    + eexists _, []. destruct w; unfold set_trace; simpl.
      by rewrite app_nil_r.
  - unfold super_retrieve. unfold mbind at 1. unfold M_bind at 1.
    rewrite get_queryset_outcome.
    destruct (is_cancelled (request w)).
    { exists (Raise (mkExn RequestAborted "Request was cancelled")), [].
      destruct w; unfold set_trace; simpl. by rewrite app_nil_r. }
    destruct (query_params (request w)) as [qp|].
    + run. eexists _, [Query "contact"]. by destruct w.
    + eexists _, []. destruct w; unfold set_trace; simpl.
      by rewrite app_nil_r.
  - rewrite stats_body_runs. eexists _, _. by split; [reflexivity |].
Qed.

(** A handler whose request carries no cancellation token: the context is
    entered, the block runs, the context is left. *)
Lemma handle_runs (self : QueryCancellationMixin.t) (a : action) (w : World) :
  truthy (py_of_param (query_string (request w) !! "_cancel")) = false →
  let mgr := QueryCancellationMixin.get_cancellation_context self (request w) in
  let ctx := QueryCancellationContext.set_start_time (clock w (ticks w)) mgr in
  let w1 := set_trace (trace w ++ enter_events mgr w)
              (set_ticks (S (ticks w)) w) in
  ∃ r t,
    handler_body render_list render_detail self a w1
    = (r, set_trace (trace w1 ++ t) w1)
    ∧ executed t = []
    ∧ (is_cancelled (request w) = true →
       match a with
       | stats_action => evaluations t = 3%nat
       | _ => r = Raise (mkExn RequestAborted "Request was cancelled")
              ∧ t = []
       end)
    ∧ handle render_list render_detail self a w
      = let w2 := set_trace (trace w1 ++ t) w1 in
        let w3 := set_trace (trace w2 ++ reset_events ctx w2) w2 in
        match QueryCancellationContext.started ctx with
        | Some t0 =>
            let w4 := set_ticks (S (ticks w2)) w3 in
            if QueryCancellationContext.exceeds (clock w (S (ticks w)) - t0)
                 (QueryCancellationMixin.query_timeout self)
            then (Raise (QueryCancellationContext.timeout_error ctx), w4)
            else if is_cancelled (request w)
            then (Raise QueryCancellationContext.request_aborted, w4)
            else (match r with Ok x => Ok (Some x) | Raise e => Raise e end, w4)
        | None =>
            if is_cancelled (request w)
            then (Raise QueryCancellationContext.request_aborted, w3)
            else (match r with Ok x => Ok (Some x) | Raise e => Raise e end, w3)
        end.
Proof.
  intros Htoken mgr ctx w1.
  destruct (handler_body_runs self a w1) as (r & t & Hbody & Hexec & Hcancelled).
  exists r, t. split; [done |]. split; [done |].
  split; [by destruct w |].
  rewrite handle_unfold, Htoken. fold mgr. rewrite with_runs. cbv zeta.
  fold ctx. fold w1. rewrite Hbody. rewrite exit_runs. cbv zeta.
  replace (request (set_trace (trace w1 ++ t) w1)) with (request w)
    by (by destruct w).
  replace (clock (set_trace (trace w1 ++ t) w1)
             (ticks (set_trace (trace w1 ++ t) w1)))
    with (clock w (S (ticks w))) by (by destruct w).
  replace (QueryCancellationContext.timeout ctx)
    with (QueryCancellationMixin.query_timeout self) by done.
  destruct (QueryCancellationContext.started ctx) as [t0|].
  - destruct (QueryCancellationContext.exceeds _ _); [done |].
    destruct (is_cancelled (request w)); [done |]. by destruct r.
  - destruct (is_cancelled (request w)); [done |]. by destruct r.
Qed.

(** The block of each handler, spelt out: what it returns and which
    queryset evaluations it adds to the trace. *)
Lemma handler_body_outcome (self : QueryCancellationMixin.t) (a : action)
    (w : World) :
  handler_body render_list render_detail self a w
  = let d := database w in
    let rows (qp : gmap string string) :=
      match qp !! "name" with
      | Some name =>
          if (name =? EmptyString)%string then appuser_table d
          else List.filter (name_matches name d) (appuser_table d)
      | None => appuser_table d
      end in
    match a with
    | stats_action =>
        (Ok (stats_response
               (Z.of_nat (length (appuser_table d)))
               (Z.of_nat (length (List.filter
                                    (λ u, negb (address__isnull d u))
                                    (appuser_table d))))
               (Z.of_nat (length (List.filter
                                    (λ u, negb (relationship__isnull d u))
                                    (appuser_table d))))),
         set_trace (trace w ++ [Query "appuser"; Query "appuser, address set";
                                Query "appuser, relationship set"]) w)
    | _ =>
        if is_cancelled (request w)
        then (Raise (mkExn RequestAborted "Request was cancelled"), w)
        else
          match query_params (request w) with
          | None =>
              (Raise (mkExn AttributeError
                        "'WSGIRequest' object has no attribute 'query_params'"),
               w)
          | Some qp =>
              match a with
              | retrieve_action pk =>
                  (render_detail d (request w) pk (rows qp),
                   set_trace (trace w ++ [Query "contact"]) w)
              | _ =>
                  (render_list d (request w) (rows qp),
                   set_trace (trace w ++ [Query "contacts"]) w)
              end
          end
    end.
Proof.
  cbv zeta.
  assert (∀ qp : gmap string string,
            match qp !! "name" with
            | Some name_filter =>
                if truthy (PyStr name_filter)
                then qs_filter (name_matches name_filter) objects
                else objects
            | None => objects
            end (database w)
            = match qp !! "name" with
              | Some name =>
                  if (name =? EmptyString)%string
                  then appuser_table (database w)
                  else List.filter (name_matches name (database w))
                         (appuser_table (database w))
              | None => appuser_table (database w)
              end) as Hrows.
  { intros qp. destruct (qp !! "name") as [name|]; [|done]. simpl.
    by destruct (name =? EmptyString)%string. }
  destruct a; simpl.
  - unfold super_list. unfold mbind at 1. unfold M_bind at 1.
    rewrite get_queryset_outcome.
    destruct (is_cancelled (request w)); [done |].
    destruct (query_params (request w)) as [qp|]; [|done].
    run. rewrite Hrows. by destruct (render_list _ _ _).
  - unfold super_retrieve. unfold mbind at 1. unfold M_bind at 1.
    rewrite get_queryset_outcome.
    destruct (is_cancelled (request w)); [done |].
    destruct (query_params (request w)) as [qp|]; [|done].
    run. rewrite Hrows. by destruct (render_detail _ _ _ _).
  - by rewrite stats_body_runs.
Qed.

End HandlerOutcome.

Section TraceOfContext.

Lemma evaluations_enter_events (mgr : QueryCancellationContext.t) (w : World) :
  evaluations (enter_events mgr w) = 0%nat.
Proof.
  unfold enter_events.
  destruct (_ && _); [|done].
  destruct (String.eqb _ _); [done |]. by destruct (String.eqb _ _).
Qed.

Lemma evaluations_reset_events (ctx : QueryCancellationContext.t) (w : World) :
  evaluations (reset_events ctx w) = 0%nat.
Proof.
  unfold reset_events.
  destruct (QueryCancellationContext.enable_cancellation ctx); [|done].
  destruct (String.eqb _ _); [done |]. by destruct (String.eqb _ _).
Qed.

Lemma evaluations_app (t1 t2 : list event) :
  evaluations (t1 ++ t2) = (evaluations t1 + evaluations t2)%nat.
Proof.
  induction t1 as [|e t1 IH]; simpl; [done |].
  destruct e; simpl; by rewrite ?IH.
Qed.

End TraceOfContext.

(** C4.  When the [_cancel] query parameter is present and not empty, each
    of [list], [retrieve] and [stats] marks the request cancelled and
    returns status 499 with body [{'detail': 'Request cancelled'}]; nothing
    else changes, so no queryset is evaluated and the cancellation context
    is not entered.  When the parameter is absent or empty, the request is
    processed: it is not marked; the context is entered, the block of the
    handler runs in it once and the context is left, which the trace and
    the number of clock readings show; and the handler answers what its
    block answers (for [list] and [retrieve] what the framework renders
    from the rows [get_queryset] selects, for [stats] the three counts),
    unless [__exit__] raises [TimeoutError] or [RequestAborted]. *)
Theorem cancel_token_short_circuits
    (render_list : Database → Request → list AppUser → result Response)
    (render_detail : Database → Request → string → list AppUser → result Response)
    (self : QueryCancellationMixin.t) (a : action) (w : World) :
  let token := query_string (request w) !! "_cancel" in
  let outcome := handle render_list render_detail self a w in
  (∀ v, token = Some v → v ≠ EmptyString →
     outcome.1 = Ok (Some (mkResponse 499
                             (PyDict [("detail", PyStr "Request cancelled")])))
     ∧ outcome.2 = set_request
         (mkRequest (query_params (request w)) (GET (request w))
                    (Some (PyBool true))) w
     ∧ trace outcome.2 = trace w
     ∧ evaluations (trace outcome.2) = evaluations (trace w)
     ∧ ticks outcome.2 = ticks w)
  ∧ (token = None ∨ token = Some EmptyString →
     let mgr :=
       QueryCancellationMixin.get_cancellation_context self (request w) in
     let ctx :=
       QueryCancellationContext.set_start_time (clock w (ticks w)) mgr in
     let d := database w in
     let rows (qp : gmap string string) :=
       match qp !! "name" with
       | Some name =>
           if (name =? EmptyString)%string then appuser_table d
           else List.filter (name_matches name d) (appuser_table d)
       | None => appuser_table d
       end in
     let block : result Response * list event :=
       match a with
       | stats_action =>
           (Ok (stats_response
                  (Z.of_nat (length (appuser_table d)))
                  (Z.of_nat (length (List.filter
                                       (λ u, negb (address__isnull d u))
                                       (appuser_table d))))
                  (Z.of_nat (length (List.filter
                                       (λ u, negb (relationship__isnull d u))
                                       (appuser_table d))))),
            [Query "appuser"; Query "appuser, address set";
             Query "appuser, relationship set"])
       | _ =>
           if is_cancelled (request w)
           then (Raise (mkExn RequestAborted "Request was cancelled"), [])
           else
             match query_params (request w) with
             | None =>
                 (Raise (mkExn AttributeError
                           "'WSGIRequest' object has no attribute 'query_params'"),
                  [])
             | Some qp =>
                 match a with
                 | retrieve_action pk =>
                     (render_detail d (request w) pk (rows qp),
                      [Query "contact"])
                 | _ =>
                     (render_list d (request w) (rows qp),
                      [Query "contacts"])
                 end
             end
       end in
     request outcome.2 = request w
     ∧ database outcome.2 = database w
     ∧ trace outcome.2
       = trace w ++ enter_events mgr w ++ block.2 ++ reset_events ctx w
     ∧ ticks outcome.2
       = (if float_truthy (clock w (ticks w))
          then S (S (ticks w)) else S (ticks w))
     ∧ outcome.1
       = if late ctx (clock w (S (ticks w)))
         then Raise (mkExn TimeoutError
                       ("Query exceeded timeout of "
                          +:+ pretty (QueryCancellationMixin.query_timeout self)
                          +:+ " seconds"))
         else if is_cancelled (request w)
         then Raise (mkExn RequestAborted "Request was cancelled")
         else match block.1 with
              | Ok response => Ok (Some response)
              | Raise e => Raise e
              end).
Proof.
  intros token outcome. split.
  - unfold outcome. rewrite handle_unfold. fold token.
    intros v -> Hv. apply String.eqb_neq in Hv. simpl. rewrite Hv. simpl.
    by destruct w.
  - intros Htoken mgr ctx d rows block.
    assert (truthy (py_of_param token) = false) as Hfalsy
      by (by destruct Htoken as [-> | ->]).
    unfold outcome. rewrite handle_unfold. fold token. rewrite Hfalsy.
    fold mgr. rewrite with_runs. cbv zeta. fold ctx.
    set (w1 := set_trace (trace w ++ enter_events mgr w)
                 (set_ticks (S (ticks w)) w)).
    assert (handler_body render_list render_detail self a w1
            = (block.1, set_trace (trace w1 ++ block.2) w1)) as ->.
    { rewrite handler_body_outcome. cbv zeta.
      replace (request w1) with (request w) by (by destruct w).
      replace (database w1) with (database w) by (by destruct w).
      unfold block. fold d. fold rows.
      destruct a; try done;
        (destruct (is_cancelled (request w));
         [simpl; f_equal; destruct w; unfold w1, set_trace; simpl;
          by rewrite app_nil_r |]);
        (destruct (query_params (request w)) as [qp|];
         [done |
          simpl; f_equal; destruct w; unfold w1, set_trace; simpl;
          by rewrite app_nil_r]). }
    rewrite exit_runs. cbv zeta. unfold late.
    replace (request (set_trace (trace w1 ++ block.2) w1)) with (request w)
      by (by destruct w).
    replace (clock (set_trace (trace w1 ++ block.2) w1)
               (ticks (set_trace (trace w1 ++ block.2) w1)))
      with (clock w (S (ticks w))) by (by destruct w).
    replace (QueryCancellationContext.timeout ctx)
      with (QueryCancellationMixin.query_timeout self) by done.
    assert (QueryCancellationContext.started ctx
            = if float_truthy (clock w (ticks w))
              then Some (clock w (ticks w)) else None) as Hstarted by done.
    rewrite Hstarted.
    assert (reset_events ctx (set_trace (trace w1 ++ block.2) w1)
            = reset_events ctx w) as -> by (by destruct w).
    generalize (reset_events ctx w). intros t_exit.
    generalize block.2. intros t_block.
    destruct (float_truthy (clock w (ticks w))).
    + destruct (QueryCancellationContext.exceeds _ _);
        [|destruct (is_cancelled (request w)); [|destruct block.1]];
        destruct w; unfold w1, set_trace; simpl;
        by rewrite <- !app_assoc.
    + destruct (is_cancelled (request w)); [|destruct block.1];
        destruct w; unfold w1, set_trace; simpl;
        by rewrite <- !app_assoc.
Qed.

Lemma contact_endpoint_is_read_only_witness :
  database (Router.serve render_ids render_one wiping
              Router.ContactViewSet_class ContactViewSet Router.GET ["stats"]
              plain_world).2
  = database plain_world
  ∧ Router.hasattr Router.ContactViewSet_class "destroy" = false
  ∧ Router.serve render_ids render_one wiping Router.ContactViewSet_class
      ContactViewSet Router.POST [] plain_world
    = (Ok Router.MethodNotAllowed, plain_world).
Proof.
  destruct (contact_endpoint_is_read_only render_ids render_one wiping
              ContactViewSet Router.GET ["stats"] plain_world)
    as (_ & Hnone & (Hsame & _) & _).
  split; [exact Hsame |]. split; [apply Hnone; repeat constructor |].
  destruct (contact_endpoint_is_read_only render_ids render_one wiping
              ContactViewSet Router.POST [] plain_world)
    as (_ & _ & (_ & _ & Hrefused) & _).
  destruct Hrefused as [Hserved | [Hserved | Hserved]];
    [done | done | discriminate Hserved | exact Hserved
     | discriminate Hserved].
Defined.

Lemma cancel_token_short_circuits_witness :
  (handle render_ids render_one ContactViewSet list_action
     cancel_token_world).1
  = Ok (Some (mkResponse 499 (PyDict [("detail", PyStr "Request cancelled")])))
  ∧ (handle render_ids render_one ContactViewSet list_action search_world).1
    = Ok (Some (mkResponse 200 (PyList [PyInt 1; PyInt 2])))
  ∧ trace (handle render_ids render_one ContactViewSet list_action
             search_world).2
    = [Cursor; Execute "SET statement_timeout = 30000"; Query "contacts";
       Cursor; Execute "SET statement_timeout = DEFAULT"]
  ∧ ticks (handle render_ids render_one ContactViewSet list_action
             search_world).2 = 2%nat.
Proof.
  destruct (cancel_token_short_circuits render_ids render_one ContactViewSet
              list_action cancel_token_world) as (Hcancel & _).
  destruct (Hcancel "1" eq_refl) as (Hresponse & _); [done |].
  split; [exact Hresponse |].
  destruct (cancel_token_short_circuits render_ids render_one ContactViewSet
              list_action search_world) as (_ & Hprocessed).
  destruct (Hprocessed (or_introl eq_refl))
    as (_ & _ & Htrace & Hticks & Hanswer).
  split; [rewrite Hanswer; vm_compute; reflexivity |].
  split; [rewrite Htrace; vm_compute; reflexivity |].
  rewrite Hticks. vm_compute. reflexivity.
Defined.

(** X7.  A request that is already marked cancelled, and carries no
    [_cancel] token, never gets a response: every handler raises,
    [TimeoutError] when the time limit is exceeded between the two clock
    readings of the context and [RequestAborted] otherwise.  [list] and
    [retrieve] give up before their queryset is evaluated; [stats] runs its
    three counts first and raises on the way out. *)
Theorem cancelled_request_gets_no_response
    (render_list : Database → Request → list AppUser → result Response)
    (render_detail : Database → Request → string → list AppUser → result Response)
    (self : QueryCancellationMixin.t) (a : action) (w : World) :
  truthy (py_of_param (query_string (request w) !! "_cancel")) = false →
  is_cancelled (request w) = true →
  let ctx :=
    QueryCancellationContext.set_start_time (clock w (ticks w))
      (QueryCancellationMixin.get_cancellation_context self (request w)) in
  let outcome := handle render_list render_detail self a w in
  outcome.1
  = (if late ctx (clock w (S (ticks w)))
     then Raise (mkExn TimeoutError
                   ("Query exceeded timeout of "
                      +:+ pretty (QueryCancellationMixin.query_timeout self)
                      +:+ " seconds"))
     else Raise (mkExn RequestAborted "Request was cancelled"))
  ∧ evaluations (trace outcome.2)
    = (evaluations (trace w)
       + match a with stats_action => 3 | _ => 0 end)%nat.
Proof.
  intros Htoken Hcancelled ctx outcome. unfold outcome, late.
  destruct (handle_runs render_list render_detail self a w Htoken)
    as (r & t & _ & _ & Hbody & ->).
  specialize (Hbody Hcancelled). rewrite Hcancelled.
  assert (evaluations t = match a with stats_action => 3 | _ => 0 end)%nat
    as Hevals by (destruct a; [by destruct Hbody as [_ ->] | by destruct Hbody as [_ ->] | done]).
  cbv zeta. fold ctx.
  replace (QueryCancellationContext.timeout ctx)
    with (QueryCancellationMixin.query_timeout self) by done.
  destruct (QueryCancellationContext.started ctx) as [t0|].
  - destruct (QueryCancellationContext.exceeds _ _); simpl;
      (split; [done |]);
      destruct w; simpl;
      by rewrite !evaluations_app, evaluations_enter_events,
           evaluations_reset_events, Hevals, !Nat.add_0_r.
  - simpl. split; [done |]. destruct w; simpl.
    by rewrite !evaluations_app, evaluations_enter_events,
         evaluations_reset_events, Hevals, !Nat.add_0_r.
Qed.

(** X8.  [list] serves what the framework renders from the rows of
    [get_queryset].  For a DRF request without a [_cancel] token that is
    not marked cancelled, and when the float difference between the clock
    readings on leaving and on entering the context is not greater than
    [query_timeout], [list] returns the
    response rendered from the rows that match the [name] parameter under
    the database's case folding (all rows without one), or raises what
    rendering raised; the request and the rows are left as they were. *)
Theorem list_serves_the_rendered_rows
    (render_list : Database → Request → list AppUser → result Response)
    (render_detail : Database → Request → string → list AppUser → result Response)
    (self : QueryCancellationMixin.t) (w : World) (qp : gmap string string) :
  query_params (request w) = Some qp →
  truthy (py_of_param (qp !! "_cancel")) = false →
  is_cancelled (request w) = false →
  float_gt_int (clock w (S (ticks w)) - clock w (ticks w))%float
    (QueryCancellationMixin.query_timeout self) = false →
  let rows :=
    match qp !! "name" with
    | Some name =>
        if (name =? EmptyString)%string then appuser_table (database w)
        else List.filter (name_matches name (database w))
               (appuser_table (database w))
    | None => appuser_table (database w)
    end in
  let outcome := handle render_list render_detail self list_action w in
  outcome.1 = match render_list (database w) (request w) rows with
              | Ok response => Ok (Some response)
              | Raise e => Raise e
              end
  ∧ request outcome.2 = request w
  ∧ database outcome.2 = database w.
Proof.
  intros Hqp Htoken Hlive Hquick rows outcome.
  assert (truthy (py_of_param (query_string (request w) !! "_cancel")) = false)
    as Htoken' by (unfold query_string; by rewrite Hqp).
  unfold outcome.
  destruct (handle_runs render_list render_detail self list_action w Htoken')
    as (r & t & Hbody & _ & _ & ->).
  simpl in Hbody. unfold super_list in Hbody.
  unfold mbind at 1 in Hbody. unfold M_bind at 1 in Hbody.
  rewrite get_queryset_outcome in Hbody.
  replace (request (set_trace _ _)) with (request w) in Hbody by (by destruct w).
  rewrite Hlive, Hqp in Hbody. run.
  injection Hbody as <- _.
  assert (QueryCancellationContext.exceeds
            (clock w (S (ticks w)) - clock w (ticks w))
            (QueryCancellationMixin.query_timeout self) = false) as Hnot
    by exact Hquick.
  assert (match qp !! "name" with
          | Some name_filter =>
              if negb (name_filter =? EmptyString)%string
              then qs_filter (name_matches name_filter) objects
              else objects
          | None => objects
          end (database w) = rows) as ->.
  { unfold rows. destruct (qp !! "name") as [name|]; [|done].
    by destruct (name =? EmptyString)%string. }
  rewrite Hlive. cbv zeta. unfold QueryCancellationContext.started. simpl.
  destruct (float_truthy (clock w (ticks w))); simpl.
  - rewrite Hnot. by destruct w.
  - by destruct w.
Qed.


(** X10.  Every request that is processed leaves the session as it found
    it.  With cancellation enabled and a non-zero [query_timeout], a handler
    whose request has no [_cancel] token sends the vendor's [SET] command
    followed by the reset to [DEFAULT] and nothing else, whether it returns
    a response or raises; on other vendors it sends nothing. *)
Theorem handler_resets_what_it_set
    (render_list : Database → Request → list AppUser → result Response)
    (render_detail : Database → Request → string → list AppUser → result Response)
    (self : QueryCancellationMixin.t) (a : action) (w : World) :
  truthy (py_of_param (query_string (request w) !! "_cancel")) = false →
  QueryCancellationMixin.enable_cancellation self = true →
  QueryCancellationMixin.query_timeout self ≠ 0 →
  let ms := pretty (QueryCancellationMixin.query_timeout self * 1000) in
  executed (trace (handle render_list render_detail self a w).2)
  = executed (trace w) ++
    (if String.eqb (vendor w) "postgresql"
     then ["SET statement_timeout = " +:+ ms;
           "SET statement_timeout = DEFAULT"]
     else if String.eqb (vendor w) "mysql"
     then ["SET SESSION max_execution_time = " +:+ ms;
           "SET SESSION max_execution_time = DEFAULT"]
     else []).
Proof.
  intros Htoken Hon Hnz ms.
  destruct (handle_runs render_list render_detail self a w Htoken)
    as (r & t & _ & Hexec & _ & ->).
  apply Z.eqb_neq in Hnz.
  assert (∀ w' : World,
            vendor w' = vendor w →
            executed (trace w' ++
                      reset_events
                        (QueryCancellationContext.set_start_time
                           (clock w (ticks w))
                           (QueryCancellationMixin.get_cancellation_context self
                              (request w))) w')
            = executed (trace w') ++
              (if String.eqb (vendor w) "postgresql"
               then ["SET statement_timeout = DEFAULT"]
               else if String.eqb (vendor w) "mysql"
               then ["SET SESSION max_execution_time = DEFAULT"]
               else [])) as Hreset.
  { intros w' Hv. rewrite executed_app. unfold reset_events. simpl.
    rewrite Hon, Hv. f_equal.
    destruct (String.eqb (vendor w) "postgresql"); [done |].
    by destruct (String.eqb (vendor w) "mysql"). }
  assert (executed (trace w ++
                    enter_events
                      (QueryCancellationMixin.get_cancellation_context self
                         (request w)) w)
          = executed (trace w) ++
            (if String.eqb (vendor w) "postgresql"
             then ["SET statement_timeout = " +:+ ms]
             else if String.eqb (vendor w) "mysql"
             then ["SET SESSION max_execution_time = " +:+ ms]
             else [])) as Henter.
  { rewrite executed_app. unfold enter_events. simpl. rewrite Hon, Hnz.
    simpl. f_equal.
    destruct (String.eqb (vendor w) "postgresql"); [done |].
    by destruct (String.eqb (vendor w) "mysql"). }
  cbv zeta.
  set (w1 := set_trace _ (set_ticks (S (ticks w)) w)) in *.
  set (w2 := set_trace (trace w1 ++ t) w1) in *.
  assert (executed (trace w2 ++ reset_events
            (QueryCancellationContext.set_start_time (clock w (ticks w))
               (QueryCancellationMixin.get_cancellation_context self
                  (request w))) w2)
          = executed (trace w) ++
            (if String.eqb (vendor w) "postgresql"
             then ["SET statement_timeout = " +:+ ms;
                   "SET statement_timeout = DEFAULT"]
             else if String.eqb (vendor w) "mysql"
             then ["SET SESSION max_execution_time = " +:+ ms;
                   "SET SESSION max_execution_time = DEFAULT"]
             else [])) as Hall.
  { rewrite Hreset by (by destruct w).
    replace (trace w2) with
      ((trace w ++ enter_events
          (QueryCancellationMixin.get_cancellation_context self (request w)) w)
       ++ t) by (by destruct w).
    rewrite executed_app, Hexec, app_nil_r, Henter, <- app_assoc. f_equal.
    destruct (String.eqb (vendor w) "postgresql"); [done |].
    by destruct (String.eqb (vendor w) "mysql"). }
  destruct (QueryCancellationContext.started _) as [t0|].
  - destruct (QueryCancellationContext.exceeds _ _);
      [|destruct (is_cancelled (request w))]; simpl; by rewrite <- Hall.
  - destruct (is_cancelled (request w)); simpl; by rewrite <- Hall.
Qed.

(** X13.  Once a request has been answered with 499 it stays marked
    cancelled: handling it again, by any handler, gives the same 499
    response and the same state, and [get_queryset] on it raises
    [RequestAborted]. *)
Theorem cancelled_response_is_final
    (render_list : Database → Request → list AppUser → result Response)
    (render_detail : Database → Request → string → list AppUser → result Response)
    (self : QueryCancellationMixin.t) (a a' : action) (w : World) :
  truthy (py_of_param (query_string (request w) !! "_cancel")) = true →
  let after := (handle render_list render_detail self a w).2 in
  is_cancelled (request after) = true
  ∧ handle render_list render_detail self a' after
    = (Ok (Some (mkResponse 499
                   (PyDict [("detail", PyStr "Request cancelled")]))), after)
  ∧ (get_queryset self after).1
    = Raise (mkExn RequestAborted "Request was cancelled").
Proof.
  intros Htoken after.
  assert (after
          = set_request
              (mkRequest (query_params (request w)) (GET (request w))
                         (Some (PyBool true))) w) as ->.
  { unfold after. by rewrite handle_unfold, Htoken. }
  split; [by destruct w |]. split.
  - rewrite handle_unfold.
    replace (query_string (request (set_request _ w)))
      with (query_string (request w)) by (by destruct w).
    rewrite Htoken. by destruct w.
  - rewrite get_queryset_outcome. by destruct w.
Qed.

(** ** views.py: the [name] filter *)
Section LetterCase.



Lemma sqlite_casefold_app (a b : string) :
  sqlite_casefold (a +:+ b) = sqlite_casefold a +:+ sqlite_casefold b.
Proof. unfold sqlite_casefold. by rewrite chars_app, map_app, of_list_app. Qed.








End LetterCase.



(** ** models.py: how much of the UUID an identifier keeps *)
Section CustomerIdBits.

Lemma hex_char_inj (d1 d2 : N) :
  (d1 < 16)%N → (d2 < 16)%N → hex_char d1 = hex_char d2 → d1 = d2.
Proof.
  intros H1 H2. unfold hex_char. intros Heq.
  apply N2Nat.inj.
  assert (N.to_nat d1 < 16)%nat as Hk1 by lia.
  assert (N.to_nat d2 < 16)%nat as Hk2 by lia.
  revert Heq. generalize dependent (N.to_nat d2).
  generalize dependent (N.to_nat d1). intros k1 Hk1 k2 Hk2.
  do 16 (destruct k1 as [|k1]; [
    do 16 (destruct k2 as [|k2]; [vm_compute; congruence |]); lia |]).
  lia.
Qed.

Lemma hex_pad_eq_iff (width : nat) (n m : N) :
  hex_pad width n = hex_pad width m
  ↔ (n mod 16 ^ N.of_nat width = m mod 16 ^ N.of_nat width)%N.
Proof.
  revert n m. induction width as [|w IH]; intros n m.
  - simpl. rewrite !N.mod_1_r. done.
  - change (hex_pad (S w) n)
      with (hex_pad w (n / 16)%N ++ [hex_char (n mod 16)%N]).
    change (hex_pad (S w) m)
      with (hex_pad w (m / 16)%N ++ [hex_char (m mod 16)%N]).
    rewrite app_inj_tail_iff, IH.
    replace (16 ^ N.of_nat (S w))%N with (16 * 16 ^ N.of_nat w)%N
      by (rewrite Nat2N.inj_succ, N.pow_succ_r'; done).
    rewrite !N.Div0.mod_mul_r.
    pose proof (N.mod_lt n 16 ltac:(done)).
    pose proof (N.mod_lt m 16 ltac:(done)).
    split.
    + intros [-> Hc]. apply hex_char_inj in Hc; [|done..]. by rewrite Hc.
    + intros Hsum.
      generalize dependent ((n / 16) mod 16 ^ N.of_nat w)%N.
      generalize dependent ((m / 16) mod 16 ^ N.of_nat w)%N.
      generalize dependent (n mod 16)%N.
      generalize dependent (m mod 16)%N.
      intros a Ha b Hb x y Hsum.
      assert (b = a) as -> by lia. split; [lia | done].
Qed.

Lemma take_hex_pad (k j : nat) (n : N) :
  take k (hex_pad (k + j) n) = hex_pad k (n / 16 ^ N.of_nat j)%N.
Proof.
  revert n. induction j as [|j IH]; intros n.
  - rewrite Nat.add_0_r, N.div_1_r. apply firstn_all2.
    by rewrite hex_pad_length.
  - rewrite Nat.add_succ_r.
    change (hex_pad (S (k + j)) n)
      with (hex_pad (k + j) (n / 16)%N ++ [hex_char (n mod 16)%N]).
    rewrite take_app_le by (rewrite hex_pad_length; lia).
    rewrite IH, N.Div0.div_div. do 2 f_equal.
    by rewrite Nat2N.inj_succ, N.pow_succ_r'.
Qed.

Lemma lower_char_upper_char_hex (c : ascii) :
  is_lower_hex c → lower_char (upper_char c) = c.
Proof.
  destruct c as [[] [] [] [] [] [] [] []];
    unfold is_lower_hex; vm_compute; intuition congruence.
Qed.

Lemma upper_char_inj (c1 c2 : ascii) :
  is_lower_hex c1 → is_lower_hex c2 → upper_char c1 = upper_char c2 → c1 = c2.
Proof.
  intros H1 H2 Heq.
  rewrite <- (lower_char_upper_char_hex c1 H1),
    <- (lower_char_upper_char_hex c2 H2).
  by rewrite Heq.
Qed.

Lemma map_upper_char_inj (l1 l2 : list ascii) :
  Forall is_lower_hex l1 → Forall is_lower_hex l2 →
  map upper_char l1 = map upper_char l2 → l1 = l2.
Proof.
  intros H1. revert l2. induction H1 as [|c1 l1 Hc1 _ IH]; intros l2 H2 Heq.
  - by destruct l2.
  - destruct H2 as [|c2 l2 Hc2 H2]; [done |].
    simpl in Heq. injection Heq as Hc Hl.
    f_equal; [by apply upper_char_inj | by apply IH].
Qed.

(** The variant and version fields lie below bit 80. *)
Lemma uuid4_leading_bits (random_bits : N) :
  (uuid4 random_bits / 2 ^ 80 = (random_bits mod 2 ^ 128) / 2 ^ 80)%N.
Proof.
  rewrite <- !N.shiftr_div_pow2. unfold uuid4. cbv zeta.
  apply N.bits_inj. intros i.
  rewrite !N.shiftr_spec', N.lor_spec, N.ldiff_spec, N.lor_spec, N.ldiff_spec.
  assert (∀ a k b, (a < 2 ^ b)%N → (k + b ≤ 80)%N →
            N.testbit (N.shiftl a k) (i + 80) = false) as Hmask.
  { intros a k b Ha Hk. rewrite N.shiftl_spec_high' by lia.
    destruct (N.eq_dec a 0%N) as [-> | Hnz]; [apply N.bits_0 |].
    apply N.bits_above_log2.
    assert (N.log2 a < b)%N by (apply N.log2_lt_pow2; [lia | exact Ha]).
    lia. }
  rewrite (Hmask 0xc000%N 48%N 16%N), (Hmask 0x8000%N 48%N 16%N),
    (Hmask 0xf000%N 64%N 16%N), (Hmask 4%N 76%N 3%N) by done.
  by rewrite !andb_true_r, !orb_false_r.
Qed.

Lemma leading_bits_bound (random_bits : N) :
  ((random_bits mod 2 ^ 128) / 2 ^ 80 < 16 ^ N.of_nat 12)%N.
Proof.
  apply N.Div0.div_lt_upper_bound.
  change (2 ^ 80 * 16 ^ N.of_nat 12)%N with (2 ^ 128)%N.
  apply N.mod_lt. done.
Qed.

Lemma customer_id_digits (random_bits : N) :
  generate_customer_id random_bits
  = "CUST-" +:+ string_of_list_ascii
      (map upper_char
         (hex_pad 12 ((random_bits mod 2 ^ 128) / 2 ^ 80)%N)).
Proof.
  unfold generate_customer_id, upper, str_take, hex.
  rewrite !chars_of_list.
  change 32%nat with (12 + 20)%nat. rewrite take_hex_pad.
  change (16 ^ N.of_nat 20)%N with (2 ^ 80)%N.
  by rewrite uuid4_leading_bits.
Qed.

End CustomerIdBits.

(** X14.  A customer identifier keeps the 48 leading bits of the 128
    random bits of the UUID and nothing else: two identifiers are equal
    exactly when the random values agree on those bits, so there are
    [2 ^ 48] different identifiers. *)
Theorem customer_id_keeps_48_bits (r1 r2 : N) :
  generate_customer_id r1 = generate_customer_id r2
  ↔ ((r1 mod 2 ^ 128) / 2 ^ 80 = (r2 mod 2 ^ 128) / 2 ^ 80)%N.
Proof.
  rewrite !customer_id_digits. split.
  - intros Heq. apply (f_equal chars) in Heq.
    rewrite !chars_app, !chars_of_list in Heq.
    apply app_inv_head in Heq.
    apply map_upper_char_inj in Heq; [|apply hex_pad_lower..].
    apply hex_pad_eq_iff in Heq.
    by rewrite (N.mod_small _ _ (leading_bits_bound r1)),
         (N.mod_small _ _ (leading_bits_bound r2)) in Heq.
  - by intros ->.
Qed.

(** ** benchmarks.py: how many pages the pagination benchmark tests *)
Section PageCount.

Variable draws : nat → nat.

Lemma filter_keeps_all {A : Type} (f : A → bool) (l : list A) :
  (∀ x, x ∈ l → f x = true) → List.filter f l = l.
Proof.
  induction l as [|x l IH]; intros Hall; simpl; [done |].
  rewrite (Hall x) by constructor. f_equal. apply IH.
  intros y Hy. apply Hall. by constructor.
Qed.

Lemma middle_page_inside (total_pages : Z) :
  3 ≤ total_pages → 2 ≤ middle_page total_pages ≤ total_pages - 1.
Proof.
  intros H. unfold middle_page.
  pose proof (Z.div_mod (total_pages + 1) 2).
  pose proof (Z.mod_pos_bound (total_pages + 1) 2). lia.
Qed.

(** With three pages or more, the pages left to draw from are those
    strictly between the first, the middle and the last. *)
Lemma available_pages_split (total_pages : Z) :
  3 ≤ total_pages →
  let m := middle_page total_pages in
  List.filter (λ p, negb (bool_decide (p ∈ [1; m; total_pages])))
              (seqZ 2 (total_pages + 1 - 2))
  = seqZ 2 (m - 2) ++ seqZ (m + 1) (total_pages - m - 1).
Proof.
  intros Htp m. pose proof (middle_page_inside total_pages Htp) as Hm.
  fold m in Hm.
  replace (total_pages + 1 - 2) with ((m - 2) + (total_pages - m + 1)) by lia.
  rewrite seqZ_app by lia.
  replace (2 + (m - 2)) with m by lia.
  rewrite (seqZ_cons m) by lia.
  replace (Z.pred (total_pages - m + 1))
    with ((total_pages - m - 1) + 1) by lia.
  rewrite (seqZ_app (Z.succ m)) by lia.
  replace (Z.succ m + (total_pages - m - 1)) with total_pages by lia.
  replace (Z.succ m) with (m + 1) by lia.
  change (seqZ total_pages 1) with [total_pages].
  rewrite List.filter_app. simpl. rewrite List.filter_app. simpl.
  rewrite (bool_decide_eq_true_2 (m ∈ [1; m; total_pages]))
    by (set_unfold; lia).
  rewrite (bool_decide_eq_true_2 (total_pages ∈ [1; m; total_pages]))
    by (set_unfold; lia).
  simpl. rewrite app_nil_r.
  rewrite !filter_keeps_all; [done | |].
  - intros x Hx. apply elem_of_seqZ in Hx.
    apply negb_true_iff, bool_decide_eq_false_2. set_unfold. lia.
  - intros x Hx. apply elem_of_seqZ in Hx.
    apply negb_true_iff, bool_decide_eq_false_2. set_unfold. lia.
Qed.

(** [pages_to_test] when there are three pages or more. *)
Lemma pages_to_test_unfold (total_pages num_random_pages : Z) :
  3 ≤ total_pages →
  let m := middle_page total_pages in
  let available_pages :=
    seqZ 2 (m - 2) ++ seqZ (m + 1) (total_pages - m - 1) in
  length available_pages = Z.to_nat (total_pages - 3)
  ∧ NoDup available_pages
  ∧ (∀ p, p ∈ available_pages → 1 < p < total_pages ∧ p ≠ m)
  ∧ pages_to_test draws total_pages num_random_pages
    = if (0 <? length available_pages)%nat then
        match random_sample draws available_pages
                (Z.min num_random_pages (Z.of_nat (length available_pages))) with
        | Ok picked => Ok (sorted_set ([1; m; total_pages] ++ sorted picked))
        | Raise e => Raise e
        end
      else Ok (sorted_set [1; m; total_pages]).
Proof.
  intros Htp m available_pages.
  pose proof (middle_page_inside total_pages Htp) as Hm. fold m in Hm.
  split; [|split; [|split]].
  - unfold available_pages. rewrite length_app, !length_seqZ. lia.
  - unfold available_pages. apply list.NoDup_app. split; [apply NoDup_seqZ |].
    split; [|apply NoDup_seqZ].
    intros x Hx Hx'. apply elem_of_seqZ in Hx, Hx'. lia.
  - intros p Hp. unfold available_pages in Hp.
    apply elem_of_app in Hp as [Hp | Hp]; apply elem_of_seqZ in Hp; lia.
  - unfold pages_to_test. cbv zeta. fold m.
    replace (m =? 1) with false by (symmetry; apply Z.eqb_neq; lia).
    replace (total_pages =? 1) with false by (symmetry; apply Z.eqb_neq; lia).
    replace (total_pages =? m) with false by (symmetry; apply Z.eqb_neq; lia).
    simpl negb. simpl andb. cbv iota. simpl app.
    pose proof (available_pages_split total_pages Htp) as Hsplit.
    cbv zeta in Hsplit. fold m in Hsplit. by rewrite Hsplit.
Qed.

Lemma sorted_set_NoDup_length (l : list Z) :
  NoDup l → length (sorted_set l) = length l.
Proof.
  intros Hl. unfold sorted_set. rewrite (Permutation_length (sorted_perm _)).
  apply Permutation_length, NoDup_Permutation;
    [apply NoDup_remove_dups | done |].
  intros x. apply elem_of_remove_dups.
Qed.

Lemma seqZ_sorted (m n : Z) : StronglySorted Z.le (seqZ m n).
Proof.
  destruct (Z.le_gt_cases n 0) as [Hn | Hn].
  { rewrite seqZ_nil by done. constructor. }
  rewrite <- (Z2Nat.id n) by lia. generalize (Z.to_nat n). clear. intros k.
  revert m. induction k as [|k IH]; intros m.
  - rewrite seqZ_nil by lia. constructor.
  - rewrite seqZ_cons by lia. constructor.
    + replace (Z.pred (Z.of_nat (S k))) with (Z.of_nat k) by lia. apply IH.
    + apply list.Forall_forall. intros x Hx. apply elem_of_seqZ in Hx. lia.
Qed.

End PageCount.

Section PageCountFacts.

Lemma submseteq_NoDup (l k : list Z) : l ⊆+ k → NoDup k → NoDup l.
Proof.
  intros Hsub Hk. apply submseteq_Permutation in Hsub as [k' Hk'].
  rewrite Hk' in Hk. by apply list.NoDup_app in Hk as [? _].
Qed.

End PageCountFacts.

(** X19.  With three pages or more and a non-negative number of random
    pages, the benchmark tests exactly [min(total_pages, 3 +
    num_random_pages)] pages: the first, the middle and the last one plus
    as many others as were asked for and are left.  Once
    [num_random_pages] is at least [total_pages - 3] it tests every page
    from 1 to [total_pages]; with two pages it tests both, whatever
    [num_random_pages] is. *)
Theorem pagination_tests_exactly
    (draws : nat → nat) (total_pages num_random_pages : Z) :
  3 ≤ total_pages → 0 ≤ num_random_pages →
  ∃ pages : list Z,
    pages_to_test draws total_pages num_random_pages = Ok pages
    ∧ Z.of_nat (length pages) = Z.min total_pages (3 + num_random_pages)
    ∧ (total_pages - 3 ≤ num_random_pages → pages = seqZ 1 total_pages)
    ∧ pages_to_test draws 2 num_random_pages = Ok [1; 2].
Proof.
  intros Htp Hnum.
  destruct (pages_to_test_unfold draws total_pages num_random_pages Htp)
    as (Hlen & Hnd & Hrange & Hrun).
  pose proof (middle_page_inside total_pages Htp) as Hm.
  set (m := middle_page total_pages) in *.
  set (available_pages := seqZ 2 (m - 2) ++ seqZ (m + 1) (total_pages - m - 1))
    in *.
  assert (∃ picked,
            pages_to_test draws total_pages num_random_pages
            = Ok (sorted_set ([1; m; total_pages] ++ picked))
            ∧ NoDup picked
            ∧ (∀ p, p ∈ picked → p ∈ available_pages)
            ∧ Z.of_nat (length picked)
              = Z.min num_random_pages (total_pages - 3))
    as (picked & -> & Hpicked & Hin & Hcount).
  { rewrite Hrun. destruct (0 <? length available_pages)%nat eqn:Hpos.
    - unfold random_sample.
      set (k := Z.min num_random_pages (Z.of_nat (length available_pages))).
      assert (0 ≤ k ≤ Z.of_nat (length available_pages)) as Hk
        by (unfold k; lia).
      replace (k <? 0) with false by (symmetry; apply Z.ltb_ge; lia).
      replace (Z.of_nat (length available_pages) <? k) with false
        by (symmetry; apply Z.ltb_ge; lia).
      simpl.
      pose proof (sample_from_submseteq draws (Z.to_nat k) 0 available_pages)
        as Hsub.
      pose proof (sample_from_length draws (Z.to_nat k) 0 available_pages
                    ltac:(lia)) as Hsize.
      exists (sorted (sample_from draws 0 available_pages (Z.to_nat k))).
      split; [done |]. split; [|split].
      + rewrite sorted_perm. by eapply submseteq_NoDup.
      + intros p Hp. rewrite sorted_perm in Hp. by eapply elem_of_submseteq.
      + rewrite (Permutation_length (sorted_perm _)), Hsize.
        unfold k. lia.
    - apply Nat.ltb_ge in Hpos. exists []. rewrite app_nil_r.
      split; [done |]. split; [constructor |]. split; [by intros p Hp%elem_of_nil |].
      simpl. lia. }
  assert (NoDup ([1; m; total_pages] ++ picked)) as Hall.
  { apply list.NoDup_app. split; [|split; [|done]].
    - repeat (apply list.NoDup_cons; split; [set_unfold; lia |]).
      constructor.
    - intros p Hp Hp'. apply Hin, Hrange in Hp'. set_unfold. lia. }
  assert (∀ p, p ∈ sorted_set ([1; m; total_pages] ++ picked)
               → 1 ≤ p ≤ total_pages) as Hbounds.
  { intros p Hp. apply elem_of_sorted_set, elem_of_app in Hp as [Hp | Hp].
    - set_unfold. lia.
    - apply Hin, Hrange in Hp. lia. }
  eexists. split; [reflexivity |]. split; [|split].
  - rewrite sorted_set_NoDup_length, length_app by done. simpl. lia.
  - intros Hmany.
    apply (StronglySorted_unique Z.le).
    + unfold sorted_set, sorted. apply StronglySorted_merge_sort; apply _.
    + apply seqZ_sorted.
    + apply submseteq_length_Permutation.
      * apply NoDup_submseteq; [apply NoDup_sorted_set |].
        intros p Hp. apply elem_of_seqZ. specialize (Hbounds p Hp). lia.
      * rewrite sorted_set_NoDup_length, length_app, length_seqZ by done.
        simpl. lia.
  - reflexivity.
Qed.

(** X20.  A negative [num_random_pages] makes the benchmark fail as soon
    as there is a page left to draw from: with four pages or more
    [random.sample] is called with a negative size and the [ValueError]
    it raises leaves the function. *)
Theorem negative_random_pages_raise
    (draws : nat → nat) (total_pages num_random_pages : Z) :
  4 ≤ total_pages → num_random_pages < 0 →
  pages_to_test draws total_pages num_random_pages
  = Raise (mkExn ValueError "Sample larger than population or is negative").
Proof.
  intros Htp Hnum.
  destruct (pages_to_test_unfold draws total_pages num_random_pages
              ltac:(lia)) as (Hlen & _ & _ & ->).
  replace (0 <? length _)%nat with true
    by (symmetry; apply Nat.ltb_lt; lia).
  unfold random_sample.
  replace (Z.min num_random_pages _ <? 0) with true
    by (symmetry; apply Z.ltb_lt; lia).
  done.
Qed.

(** X21.  The page plan at its borders, for a positive page size: no item
    gives no plan; up to [page_size] items give the single page 1; more
    items give a plan with at least two pages whenever the number of
    random pages is not negative.  A page size of 0 with at least one item
    raises [ZeroDivisionError]. *)
Theorem page_plan_borders
    (draws : nat → nat) (page_size num_random_pages total_count : Z) :
  (0 < page_size →
     page_plan draws page_size num_random_pages 0 = Ok None
     ∧ (0 < total_count ≤ page_size →
        page_plan draws page_size num_random_pages total_count
        = Ok (Some (1, [1])))
     ∧ (page_size < total_count → 0 ≤ num_random_pages →
        ∃ n pages,
          page_plan draws page_size num_random_pages total_count
          = Ok (Some (n, pages))
          ∧ 2 ≤ n ∧ (2 ≤ length pages)%nat))
  ∧ (total_count ≠ 0 →
     page_plan draws 0 num_random_pages total_count
     = Raise (mkExn ZeroDivisionError "integer division or modulo by zero")).
Proof.
  split.
  - intros Hsize. split; [done |]. split.
    + intros Hcount. unfold page_plan, total_pages.
      replace (total_count =? 0) with false by (symmetry; apply Z.eqb_neq; lia).
      replace (page_size =? 0) with false by (symmetry; apply Z.eqb_neq; lia).
      pose proof (total_pages_ceiling total_count page_size Hsize) as Hceil.
      cbv zeta in Hceil.
      replace (_ `div` page_size <=? 1) with true; [done |].
      symmetry. apply Z.leb_le. nia.
    + intros Hcount Hnum. unfold page_plan, total_pages.
      replace (total_count =? 0) with false by (symmetry; apply Z.eqb_neq; lia).
      replace (page_size =? 0) with false by (symmetry; apply Z.eqb_neq; lia).
      pose proof (total_pages_ceiling total_count page_size Hsize) as Hceil.
      cbv zeta in Hceil.
      set (n := (total_count + page_size - 1) `div` page_size) in *.
      assert (2 ≤ n) as Hn by nia.
      replace (n <=? 1) with false by (symmetry; apply Z.leb_gt; lia).
      destruct (pages_to_test_shape draws n num_random_pages ltac:(lia) Hnum)
        as (fixed & picked & -> & H1 & _ & Hlast & _ & _ & _).
      eexists _, _. split; [reflexivity |]. split; [done |].
      assert (1 ∈ sorted_set (fixed ++ picked)) as Hfirst
        by (apply elem_of_sorted_set, elem_of_app; by left).
      assert (n ∈ sorted_set (fixed ++ picked)) as Hend
        by (apply elem_of_sorted_set, elem_of_app; by left).
      destruct (sorted_set (fixed ++ picked)) as [|x [|y l]]; simpl.
      * by apply elem_of_nil in Hfirst.
      * apply list_elem_of_singleton in Hfirst, Hend. lia.
      * lia.
  - intros Hcount. unfold page_plan.
    by replace (total_count =? 0) with false
      by (symmetry; apply Z.eqb_neq; lia).
Qed.

(** ** benchmarks.py: what the runner measures and restores *)

(** X15.  [measure_time] counts only the queries of the benchmarked
    function and leaves the query log empty.  The log is cleared before
    the function starts, the [query_count] of the record is the number of
    queries in the log when the function has finished, and the log is
    empty again when [measure_time] is left, also when it is left by an
    exception. *)
Theorem measure_time_counts_own_queries
    (func : M (option pyobj)) (w : World) :
  let w0 := set_ticks (S (ticks w)) (set_queries [] w) in
  let outcome := measure_time func w in
  queries w0 = []
  ∧ queries outcome.2 = []
  ∧ ∀ m, outcome.1 = Ok m →
         Benchmarks.query_count m = Z.of_nat (length (queries (func w0).2)).
Proof.
  intros w0 outcome. unfold outcome. rewrite measure_time_unfold. cbv zeta.
  fold w0. split; [done |].
  unfold finally. destruct (func w0) as [[result_obj|e] w1]; simpl.
  - destruct result_obj as [[sc [results_data|]]|]; run.
    + destruct (count_results results_data) as [count|e]; simpl.
      * split; [done |]. by intros m [= <-].
      * unfold handle_exception.
        destruct (is_OperationalError (exn_cls e)); run.
        { split; [done |]. by intros m [= <-]. }
        destruct (is_Exception (exn_cls e)); run.
        { split; [done |]. by intros m [= <-]. }
        done.
    + split; [done |]. by intros m [= <-].
    + split; [done |]. by intros m [= <-].
  - unfold handle_exception.
    destruct (is_OperationalError (exn_cls e)); run.
    { split; [done |]. by intros m [= <-]. }
    destruct (is_Exception (exn_cls e)); run.
    { split; [done |]. by intros m [= <-]. }
    done.
Qed.

Section FetchPage.

Variable view : list (string * pyval) → M (option pyobj).

Lemma fetch_page_unfold (params : list (string * pyval)) (page_num : Z)
    (w : World) :
  let start_time := clock w (ticks w) in
  let w0 := set_ticks (S (ticks w)) (set_queries [] w) in
  (Runner._fetch_page view params page_num w).1
  = (match view params w0 with
     | (Raise e, w1) => Runner.fetch_failed page_num start_time e w1
     | (Ok response_obj, w1) =>
         (end_time ← time_time;
          let execution_time := ((end_time - start_time) * 1000)%float in
          query_count ← len_queries;
          let status_code :=
            match response_obj ≫= attr_status_code with
            | Some v => v
            | None => PyNone
            end in
          match Runner.page_metadata response_obj with
          | Ok (result_count, total_count, has_next) =>
              mret (Runner.mkPageResult page_num execution_time query_count
                      result_count status_code PyNone total_count has_next)
          | Raise e => Runner.fetch_failed page_num start_time e
          end) w1
     end).1.
Proof.
  cbv zeta. unfold Runner._fetch_page.
  unfold mbind at 1. unfold M_bind at 1. unfold reset_queries at 1.
  unfold modify at 1. unfold mbind at 1. unfold M_bind at 1.
  unfold time_time at 1. rewrite finally_reset_outcome. by destruct w.
Qed.

Lemma fetch_failed_records (page_num : Z) (start_time : float) (e : exn)
    (w : World) :
  is_Exception (exn_cls e) = true →
  ∃ r, (Runner.fetch_failed page_num start_time e w).1 = Ok r
       ∧ Runner.page r = page_num
       ∧ Runner.status_code r = PyNone
       ∧ Runner.result_count r = PyInt 0
       ∧ Runner.total_count r = PyInt 0
       ∧ Runner.has_next r = false
       ∧ Runner.error r = PyStr
           (if is_OperationalError (exn_cls e)
               && (contains "timeout" (lower (exn_msg e))
                   || contains "QueryCanceled" (exn_msg e))
            then "TIMEOUT" else exn_msg e).
Proof.
  intros Hexc. unfold Runner.fetch_failed.
  destruct (is_OperationalError (exn_cls e)); simpl.
  - run. eexists. split; [reflexivity |]. simpl.
    by destruct (contains "timeout" (lower (exn_msg e))
                 || contains "QueryCanceled" (exn_msg e)).
  - rewrite Hexc. run. eexists. by split; [reflexivity |].
Qed.

End FetchPage.

(** X16.  A page whose fetch raises an exception derived from [Exception]
    is recorded, not propagated: [_fetch_page] returns a record for the
    requested page with the exception's message as [error] ([TIMEOUT] for
    an [OperationalError] that mentions a timeout), no status code, no
    result, a total count of 0 and no next page.  When this happens to page
    1 the pagination benchmark has no plan and returns [None], also for an
    exception whose message is empty. *)
Theorem failed_page_is_recorded_empty
    (view : list (string * pyval) → M (option pyobj))
    (params : list (string * pyval)) (page_num : Z) (w : World) (e : exn)
    (draws : nat → nat) (page_size num_random_pages : Z) :
  (view params (set_ticks (S (ticks w)) (set_queries [] w))).1 = Raise e →
  is_Exception (exn_cls e) = true →
  ∃ r, (Runner._fetch_page view params page_num w).1 = Ok r
       ∧ Runner.page r = page_num
       ∧ Runner.error r = PyStr
           (if is_OperationalError (exn_cls e)
               && (contains "timeout" (lower (exn_msg e))
                   || contains "QueryCanceled" (exn_msg e))
            then "TIMEOUT" else exn_msg e)
       ∧ Runner.status_code r = PyNone
       ∧ Runner.result_count r = PyInt 0
       ∧ Runner.total_count r = PyInt 0
       ∧ Runner.has_next r = false
       ∧ Runner.after_first_page draws page_size num_random_pages
           (Runner.error r) 0 = Ok None.
Proof.
  intros Hview Hexc. rewrite fetch_page_unfold. cbv zeta.
  destruct (view params _) as [res w1]. simpl in Hview. subst res.
  destruct (fetch_failed_records page_num (clock w (ticks w)) e w1 Hexc)
    as (r & Hr & Hpage & Hstatus & Hcount & Htotal & Hnext & Herror).
  exists r. do 7 (split; [done |]).
  unfold Runner.after_first_page. by destruct (truthy (Runner.error r)).
Qed.

(** X17.  What [_fetch_page] reads off a response.  From a paginated
    payload, a dict with a list under [results], it takes the length of
    that list, the [count] entry (0 when missing) and whether [next] is
    present and not [None]; [error] is [None].  From a payload that is a
    plain list it takes the length, and reports a total count of 0, so
    that the pagination benchmark, run against an unpaginated view, finds
    no item to page through and returns [None]. *)
Theorem fetched_page_metadata
    (view : list (string * pyval) → M (option pyobj))
    (params : list (string * pyval)) (page_num : Z) (w : World)
    (response : Response) (draws : nat → nat)
    (page_size num_random_pages : Z) :
  (view params (set_ticks (S (ticks w)) (set_queries [] w))).1
  = Ok (Some (obj_of_response response)) →
  (∀ d l, data response = PyDict d →
     dict_get "results" d = Some (PyList l) →
     ∃ r, (Runner._fetch_page view params page_num w).1 = Ok r
          ∧ Runner.error r = PyNone
          ∧ Runner.status_code r = PyInt (Env.status_code response)
          ∧ Runner.result_count r = PyInt (Z.of_nat (length l))
          ∧ Runner.total_count r
            = match dict_get "count" d with Some v => v | None => PyInt 0 end
          ∧ (Runner.has_next r = true
             ↔ ∃ v, dict_get "next" d = Some v ∧ v ≠ PyNone))
  ∧ (∀ l, data response = PyList l →
     ∃ r, (Runner._fetch_page view params page_num w).1 = Ok r
          ∧ Runner.error r = PyNone
          ∧ Runner.result_count r = PyInt (Z.of_nat (length l))
          ∧ Runner.total_count r = PyInt 0
          ∧ Runner.has_next r = false
          ∧ Runner.after_first_page draws page_size num_random_pages
              (Runner.error r) 0 = Ok None).
Proof.
  intros Hview. split.
  - intros d l Hdata Hresults. rewrite fetch_page_unfold. cbv zeta.
    destruct (view params _) as [res w1]. simpl in Hview. subst res.
    run. unfold Runner.page_metadata. simpl. rewrite Hdata, Hresults. simpl.
    eexists. split; [reflexivity |]. simpl. do 4 (split; [done |]).
    destruct (dict_get "next" d) as [[]|]; split; try done; eauto;
      intros (v & Hv & Hnone); congruence.
  - intros l Hdata. rewrite fetch_page_unfold. cbv zeta.
    destruct (view params _) as [res w1]. simpl in Hview. subst res.
    run. unfold Runner.page_metadata. simpl. rewrite Hdata. simpl.
    eexists. by split; [reflexivity |].
Qed.

(** X18.  Switching pagination off and restoring it.  After
    [_setup_pagination(False)], once or twice in a row, the view set uses
    [NoPagination]; [_restore_pagination] then puts back the class that was
    remembered, or else the one the view set had, and forgets it.  When the
    view set had no pagination class at all there is nothing to remember
    and it keeps [NoPagination].  [_setup_pagination(True, page_size)]
    changes nothing and passes [page_size] on only when it is truthy. *)
Theorem pagination_is_restored
    (page_size : pyval) (s : Runner.PaginationState) :
  let off := (Runner._setup_pagination false page_size s).2 in
  let off_twice := (Runner._setup_pagination false page_size off).2 in
  let original :=
    match Runner.original_pagination s with
    | Some p => Some p
    | None => Runner.pagination_class s
    end in
  Runner.pagination_class off = Some Runner.NoPagination
  ∧ Runner._restore_pagination off
    = Runner.mkPagination
        (match original with Some p => Some p | None => Some Runner.NoPagination end)
        None
  ∧ Runner._restore_pagination off_twice = Runner._restore_pagination off
  ∧ (∀ p, Runner.original_pagination s = None →
          Runner.pagination_class s = Some p →
          Runner._restore_pagination off = s)
  ∧ Runner._setup_pagination true page_size s
    = (if truthy page_size then [("page_size", page_size)] else [], s)
  ∧ (Runner._setup_pagination false page_size s).1 = [].
Proof.
  intros off off_twice original.
  split; [done |]. split; [by destruct s as [[cls|] [orig|]] |].
  split; [by destruct s as [[cls|] [orig|]] |].
  split; [intros p; destruct s as [cls orig]; simpl; by intros -> -> |].
  split; [|done].
  unfold Runner._setup_pagination. by destruct (truthy page_size).
Qed.

(** ** migrations/0004_enable_pg_trgm.py *)

(** X22.  The migration creates the extension only when the database says
    it is missing.  When it exists, the [SELECT] is the only statement
    sent and the migration succeeds.  When it is missing, [CREATE
    EXTENSION] is sent after the [SELECT]; a failure derived from
    [Exception] whose message mentions [permission denied] or
    [insufficientprivilege], in any letter case, is replaced by an
    exception carrying the instructions for the superuser, and every other
    failure is raised as it came.  Undoing the migration sends the one
    [DROP EXTENSION] statement. *)
Theorem pg_trgm_created_only_when_missing
    (server : Migrations.Server) (w : World) :
  let enabling := Migrations.enable_pg_trgm_extension server w in
  let disabling := Migrations.disable_pg_trgm_extension server w in
  (Migrations.select_exists server = Ok true →
     enabling.1 = Ok ()
     ∧ executed (trace enabling.2)
       = executed (trace w) ++ [Migrations.select_sql])
  ∧ (Migrations.select_exists server = Ok false →
     executed (trace enabling.2)
     = executed (trace w)
       ++ [Migrations.select_sql; "CREATE EXTENSION IF NOT EXISTS pg_trgm;"]
     ∧ match Migrations.create_extension server with
       | Ok _ => enabling.1 = Ok ()
       | Raise e =>
           (is_Exception (exn_cls e) = true
            ∧ (substring_of "permission denied" (lower (exn_msg e))
               ∨ substring_of "insufficientprivilege" (lower (exn_msg e)))
            → enabling.1
              = Raise (mkExn OtherException Migrations.permission_help))
           ∧ (¬ (is_Exception (exn_cls e) = true
                 ∧ (substring_of "permission denied" (lower (exn_msg e))
                    ∨ substring_of "insufficientprivilege"
                         (lower (exn_msg e))))
              → enabling.1 = Raise e)
       end)
  ∧ (∀ e, Migrations.select_exists server = Raise e → enabling.1 = Raise e)
  ∧ executed (trace disabling.2)
    = executed (trace w) ++ ["DROP EXTENSION IF EXISTS pg_trgm;"]
  ∧ disabling.1 = Migrations.drop_extension server.
Proof.
  intros enabling disabling. unfold enabling, disabling.
  unfold Migrations.enable_pg_trgm_extension,
    Migrations.disable_pg_trgm_extension.
  split; [|split; [|split; [|split]]].
  - intros Hsel. run. rewrite Hsel. simpl. split; [done |].
    destruct w; simpl. by rewrite !executed_app; simpl; rewrite ?app_nil_r, <- ?app_assoc.
  - intros Hsel. run. rewrite Hsel. simpl.
    destruct (Migrations.create_extension server) as [[]|e]; simpl.
    + split; [|done]. destruct w; simpl. by rewrite !executed_app; simpl; rewrite ?app_nil_r, <- ?app_assoc.
    + destruct (is_Exception (exn_cls e)); simpl.
      * destruct (contains "permission denied" (lower (exn_msg e))) eqn:H1;
          destruct (contains "insufficientprivilege" (lower (exn_msg e)))
            eqn:H2; simpl;
          (split; [destruct w; simpl; by rewrite !executed_app; simpl; rewrite ?app_nil_r, <- ?app_assoc |]);
          (split;
           [ intros [_ [H | H]]; apply contains_spec in H;
             first [done | congruence]
           | intros Hn;
             first [ done
                   | exfalso; apply Hn; split; [done |];
                     first [ left; by apply contains_spec
                           | right; by apply contains_spec ] ] ]).
      * split; [destruct w; simpl; by rewrite !executed_app; simpl; rewrite ?app_nil_r, <- ?app_assoc |].
        split; [by intros [? _] | done].
  - intros e Hsel. run. by rewrite Hsel.
  - run. destruct (Migrations.drop_extension server);
      destruct w; simpl; by rewrite !executed_app; simpl; rewrite ?app_nil_r, <- ?app_assoc.
  - run. by destruct (Migrations.drop_extension server) as [[]|].
Qed.

(** ** Examples of the further properties *)
Import MoreSamples.

Lemma exit_checks_timeout_first_witness :
  (QueryCancellationContext.__exit__ (entered 30 true) None
     (second_reading slow_world)).1
  = Raise (mkExn TimeoutError "Query exceeded timeout of 30 seconds").
Proof.
  destruct (exit_checks_timeout_first (entered 30 true) None
              (second_reading slow_world)) as (_ & _ & _ & Hlate & _).
  exact (Hlate eq_refl).
Defined.

Lemma context_check_cancellation_request_first_witness :
  QueryCancellationContext.check_cancellation (entered 30 true)
    (second_reading slow_cancelled_world)
  = (Raise (mkExn RequestAborted "Request was cancelled"),
     second_reading slow_cancelled_world)
  ∧ ∃ e, (QueryCancellationContext.__exit__ (entered 30 true) None
            (second_reading slow_cancelled_world)).1 = Raise e
         ∧ exn_cls e = TimeoutError.
Proof.
  destruct (context_check_cancellation_request_first (entered 30 true) None
              (second_reading slow_cancelled_world))
    as (Hcheck & Hexit & _).
  split; [exact (Hcheck eq_refl) | exact (Hexit eq_refl eq_refl)].
Defined.

Lemma with_never_swallows_witness :
  ∃ e', (with_ (entered 30 true) failing plain_world).1 = Raise e'
        ∧ (e' = mkExn ValueError "boom" ∨ exn_cls e' = TimeoutError
           ∨ exn_cls e' = RequestAborted).
Proof.
  destruct (with_never_swallows (entered 30 true) failing plain_world)
    as (_ & Hraise).
  apply (Hraise (entered 30 true)
           (set_trace [Cursor; Execute "SET statement_timeout = 30000"]
              (second_reading plain_world))
           (mkExn ValueError "boom")); reflexivity.
Defined.

Lemma zero_timeout_always_expires_witness :
  (QueryCancellationContext.__exit__ (entered 0 true) None
     (second_reading plain_world)).1
  = Raise (mkExn TimeoutError "Query exceeded timeout of 0 seconds").
Proof.
  destruct (zero_timeout_always_expires (entered 0 true) None
              (second_reading plain_world) (stepping_clock 1 0)
              eq_refl eq_refl) as (_ & Hexpired & _).
  - vm_compute. reflexivity.
  - apply Hexpired. vm_compute. reflexivity.
Defined.

Lemma disabled_cancellation_sends_nothing_witness :
  trace (QueryCancellationContext.__exit__ (entered 30 false) None
           (second_reading slow_world)).2 = []
  ∧ (QueryCancellationContext.__exit__ (entered 30 false) None
       (second_reading slow_world)).1
    = Raise (mkExn TimeoutError "Query exceeded timeout of 30 seconds").
Proof.
  destruct (disabled_cancellation_sends_nothing (entered 30 false) None
              (second_reading slow_world) eq_refl) as (_ & Htrace & Hlate).
  split; [exact Htrace | exact (Hlate eq_refl)].
Defined.


Lemma cancelled_request_gets_no_response_witness :
  (handle render_ids render_one ContactViewSet stats_action
     cancelled_world).1
  = Raise (mkExn RequestAborted "Request was cancelled")
  ∧ (handle render_ids render_one ContactViewSet stats_action
       slow_cancelled_world).1
    = Raise (mkExn TimeoutError "Query exceeded timeout of 30 seconds").
Proof.
  split.
  - destruct (cancelled_request_gets_no_response render_ids render_one
                ContactViewSet stats_action cancelled_world eq_refl eq_refl)
      as (Hraise & _).
    rewrite Hraise. vm_compute. reflexivity.
  - destruct (cancelled_request_gets_no_response render_ids render_one
                ContactViewSet stats_action slow_cancelled_world
                eq_refl eq_refl) as (Hraise & _).
    rewrite Hraise. vm_compute. reflexivity.
Defined.

Lemma list_serves_the_rendered_rows_witness :
  (handle render_ids render_one ContactViewSet list_action search_world).1
  = Ok (Some (mkResponse 200 (PyList [PyInt 1; PyInt 2]))).
Proof.
  destruct (list_serves_the_rendered_rows render_ids render_one
              ContactViewSet search_world {["name" := "ALI"]}
              eq_refl eq_refl eq_refl) as (Hresponse & _).
  - vm_compute. reflexivity.
  - exact Hresponse.
Defined.


Lemma handler_resets_what_it_set_witness :
  executed (trace (handle render_ids render_one ContactViewSet list_action
                     mysql_world).2)
  = ["SET SESSION max_execution_time = 30000";
     "SET SESSION max_execution_time = DEFAULT"].
Proof.
  apply (handler_resets_what_it_set render_ids render_one ContactViewSet
           list_action mysql_world eq_refl eq_refl).
  simpl. lia.
Defined.

Lemma cancelled_response_is_final_witness :
  is_cancelled
    (request (handle render_ids render_one ContactViewSet list_action
                cancel_token_world).2) = true
  ∧ (get_queryset ContactViewSet
       (handle render_ids render_one ContactViewSet list_action
          cancel_token_world).2).1
    = Raise (mkExn RequestAborted "Request was cancelled").
Proof.
  destruct (cancelled_response_is_final render_ids render_one ContactViewSet
              list_action stats_action cancel_token_world eq_refl)
    as (Hmarked & _ & Hqueryset).
  split; [exact Hmarked | exact Hqueryset].
Defined.



Lemma pagination_tests_exactly_witness :
  ∃ pages : list Z,
    pages_to_test (λ i, (i * 7 + 3)%nat) 124 4 = Ok pages
    ∧ Z.of_nat (length pages) = 7.
Proof.
  destruct (pagination_tests_exactly (λ i, (i * 7 + 3)%nat) 124 4)
    as (pages & Hpages & Hlength & _); [lia | lia |].
  exists pages. split; [exact Hpages | exact Hlength].
Defined.

Lemma negative_random_pages_raise_witness :
  pages_to_test (λ i, i) 4 (-1)
  = Raise (mkExn ValueError "Sample larger than population or is negative").
Proof.
  apply (negative_random_pages_raise (λ i, i) 4 (-1)); lia.
Defined.

Lemma page_plan_borders_witness :
  page_plan (λ i, i) 10 2 5 = Ok (Some (1, [1]))
  ∧ page_plan (λ i, i) 0 2 5
    = Raise (mkExn ZeroDivisionError "integer division or modulo by zero").
Proof.
  destruct (page_plan_borders (λ i, i) 10 2 5) as (Hplan & Hzero).
  destruct Hplan as (_ & Hsingle & _); [lia |].
  split; [apply Hsingle; lia | apply Hzero; lia].
Defined.

Lemma measure_time_counts_own_queries_witness :
  ∃ m, (measure_time two_queries
          (set_queries ["SELECT 0"] plain_world)).1 = Ok m
       ∧ Benchmarks.query_count m = 2.
Proof.
  destruct (measure_time_counts_own_queries two_queries
              (set_queries ["SELECT 0"] plain_world)) as (_ & _ & Hcount).
  eexists. split; [reflexivity |].
  apply Hcount. reflexivity.
Defined.

Lemma failed_page_is_recorded_empty_witness :
  ∃ r, (Runner._fetch_page (λ _, timed_out) [] 1 plain_world).1 = Ok r
       ∧ Runner.error r = PyStr "TIMEOUT"
       ∧ Runner.has_next r = false.
Proof.
  destruct (failed_page_is_recorded_empty (λ _, timed_out) [] 1 plain_world
              (mkExn OperationalError
                 "canceling statement due to statement Timeout")
              (λ i, i) 10 2 eq_refl eq_refl)
    as (r & Hr & _ & Herror & _ & _ & _ & Hnext & _).
  exists r. split; [exact Hr |]. split; [exact Herror | exact Hnext].
Defined.

Lemma fetched_page_metadata_witness :
  ∃ r, (Runner._fetch_page paged_view [] 1 plain_world).1 = Ok r
       ∧ Runner.result_count r = PyInt 2
       ∧ Runner.total_count r = PyInt 2
       ∧ Runner.has_next r = true.
Proof.
  destruct (fetched_page_metadata paged_view [] 1 plain_world paged_response
              (λ i, i) 10 2 eq_refl) as (Hpaged & _).
  destruct (Hpaged _ [PyInt 1; PyInt 2] eq_refl eq_refl)
    as (r & Hr & _ & _ & Hresults & Htotal & Hnext).
  exists r. split; [exact Hr |]. split; [exact Hresults |].
  split; [exact Htotal |].
  apply Hnext. eexists. split; [reflexivity | discriminate].
Defined.

Lemma pagination_is_restored_witness :
  Runner._restore_pagination
    (Runner._setup_pagination false (PyInt 50) contact_pagination).2
  = contact_pagination.
Proof.
  destruct (pagination_is_restored (PyInt 50) contact_pagination)
    as (_ & _ & _ & Hback & _).
  exact (Hback (Runner.PaginationClass "ContactPagination") eq_refl eq_refl).
Defined.

Lemma pg_trgm_created_only_when_missing_witness :
  (Migrations.enable_pg_trgm_extension unprivileged plain_world).1
  = Raise (mkExn OtherException Migrations.permission_help).
Proof.
  destruct (pg_trgm_created_only_when_missing unprivileged plain_world)
    as (_ & Hmissing & _).
  destruct (Hmissing eq_refl) as (_ & Hdenied & _).
  apply Hdenied. split; [reflexivity |].
  left. exists EmptyString, " to create extension pg_trgm". reflexivity.
Defined.
